(** * Emoji-Stealer: the presence-status updater and the webhook logger

    A shallow embedding of [src/structures/StatusUpdater.ts] (class
    [StatusUpdater]) and of [WebhookLogger._write], with the properties the
    specification states about them.

    Conventions of the embedding:
    - a JavaScript object that is only read is a Rocq record; an object that
      is written through a reference lives in a store ([gmap loc _]) and is
      named by its location;
    - [undefined] in an optional field or variable is [None];
    - a JavaScript number that holds an integer is a [Z]; the one place where
      binary64 rounding matters ([Math.random() * length]) is modelled bit by
      bit (module [Numbers]);
    - a string is a [string] whose characters stand for the UTF-16 code units
      that [.length] counts;
    - a synchronous [throw] is the left injection of a sum. *)

From stdpp Require Import base option list gmap strings fin_maps pretty.
From Stdlib Require Import ZArith Lia Bool Ascii.

Local Open Scope Z_scope.

(** ** JavaScript numbers used by the selection code *)

Module Numbers.

(** A binary64 value in the half-open interval [0,1), as [Math.random()]
    returns it: [significand * 2^-scale].  Every double in [0,1) has this
    shape with [0 <= significand < 2^53] and [53 <= scale <= 1074]
    (subnormals have [scale = 1074]), and every such pair is a double in
    [0,1). *)
Record unit_double : Type := UnitDouble { significand : Z; scale : Z }.

Definition is_unit_double (r : unit_double) : bool :=
  (0 <=? significand r) && (significand r <? 2 ^ 53)
  && (53 <=? scale r) && (scale r <=? 1074).

(** Round a non-negative integer to 53 significant bits, to nearest, ties
    to even: the rounding of IEEE-754 binary64 arithmetic. *)
Definition round53 (n : Z) : Z :=
  if n <? 2 ^ 53 then n
  else
    let s := Z.log2 n - 52 in
    let q := Z.shiftr n s in
    let rest := n mod 2 ^ s in
    let half := 2 ^ (s - 1) in
    let q' :=
      if rest <? half then q
      else if half <? rest then q + 1
      else if Z.even q then q else q + 1 in
    Z.shiftl q' s.

(** [r * len] in binary64, for an array length [len] (an integer below
    2^32, exactly representable): the exact product is
    [significand * len * 2^-scale]; the result is its rounding, returned as
    the numerator over the same power of two. *)
Definition times_length (r : unit_double) (len : Z) : Z :=
  round53 (significand r * len).

(** Truncation of that non-negative double to an integer. *)
Definition truncate (r : unit_double) (len : Z) : Z :=
  Z.shiftr (times_length r len) (scale r).

(** ToInt32 on an integer: reduce modulo 2^32 into the signed range. *)
Definition ToInt32 (z : Z) : Z :=
  let m := z mod 2 ^ 32 in
  if m <? 2 ^ 31 then m else m - 2 ^ 32.

(** [~~(Math.random() * len)]: two bitwise NOTs, i.e. ToInt32 of the
    truncated product. *)
Definition double_tilde_product (r : unit_double) (len : Z) : Z :=
  ToInt32 (truncate r len).

End Numbers.
Import Numbers.

(** ** Data model *)

(** [ActivityOptions] of the host library, as this code uses it.  [type] is
    optional; a template of the pool always carries a [name] (the fetched
    JSON is an array of objects with at least a [name]).  [None] is
    [undefined]. *)
Record ActivityOptions : Type := {
  type : option string;
  name : string;
  url : option string;
  shardID : option Z
}.

Definition with_shardID (n : Z) (a : ActivityOptions) : ActivityOptions :=
  {| type := type a; name := name a; url := url a; shardID := Some n |}.

(** What a [throw] carries: [new Error(message)], or the engine's
    [TypeError] for a property read on [undefined]. *)
Inductive Exception : Type :=
  | Error (message : string)
  | TypeError.

(** Truthiness of the values that appear under [if (...)] and [||]. *)
Definition truthy_string (s : string) : bool := negb (String.eqb s "").
Definition truthy_number (n : Z) : bool := negb (n =? 0).

(** [x || d] on an optional string. *)
Definition string_or (x : option string) (d : string) : string :=
  match x with
  | Some s => if truthy_string s then s else d
  | None => d
  end.

Definition defaultStatuses : list ActivityOptions := [
  {| type := Some "PLAYING"; name := "with {users} users"; url := None; shardID := None |};
  {| type := Some "LISTENING"; name := "{users} users"; url := None; shardID := None |};
  {| type := Some "WATCHING"; name := "over {users} users"; url := None; shardID := None |};
  {| type := Some "PLAYING"; name := "in {guilds} servers"; url := None; shardID := None |};
  {| type := Some "WATCHING"; name := "{website}"; url := None; shardID := None |};
  {| type := Some "PLAYING"; name := "{prefix}help for help"; url := None; shardID := None |};
  {| type := Some "WATCHING"; name := "{guilds} servers"; url := None; shardID := None |}
].

(** The value passed as the third constructor argument, as the run-time
    checks of the constructor see it ([typeof], [_.isArray], truthiness). *)
Inductive StatusesArg : Type :=
  | ArgUndefined
  | ArgNull
  | ArgBoolean (b : bool)
  | ArgNumber (n : Z)
  | ArgString (s : string)
  | ArgArray (templates : list ActivityOptions)
  | ArgObject.                (* any other object; always truthy *)

Definition truthy (v : StatusesArg) : bool :=
  match v with
  | ArgUndefined | ArgNull => false
  | ArgBoolean b => b
  | ArgNumber n => truthy_number n
  | ArgString s => truthy_string s
  | ArgArray _ | ArgObject => true
  end.

(** The fields of a [StatusUpdater] that the class writes.  ([client] and
    [parser] are references to collaborators, passed to the operations
    below.) *)
Record StatusUpdater : Type := {
  statusUrl : option string;
  _statuses : option (list ActivityOptions);
  isReady : bool
}.

(** Where the promise chain started by [_init] stands. *)
Inductive InitTask : Type :=
  | FetchPending (target : string)
      (* [_getStatuses] is suspended at [await Axios.get(...)] *)
  | ThenQueued (resolved : list ActivityOptions)
      (* [_getStatuses()] is fulfilled; the [.then] reaction has not run *)
  | CatchQueued (reason : option Exception)
      (* [_getStatuses()] is rejected; the [.catch] reaction has not run *)
  | InitDone
  | InitFailed (thrown : Exception).
      (* the [.catch] reaction rethrew: an unhandled rejection *)

(** Live counters read from the host client's caches. *)
Record Counters : Type := { users : Z; guilds : Z; channels : Z }.

(** A promise as the caller of the host API observes it once settled. *)
Inductive Promise (A E : Type) : Type :=
  | Fulfilled (value : A)
  | Rejected (reason : E).
Arguments Fulfilled {A E} value.
Arguments Rejected {A E} reason.

(** References to activity objects, and the store they live in. *)
Abbreviation loc := positive.
Abbreviation store := (gmap positive ActivityOptions).

(** ** The class [StatusUpdater] *)

Section StatusUpdaterClass.

(** [isUrl] of ../util/Validators. *)
Variable isUrl : string -> bool.

(** The [VariableParser] instance: its held data, [updateData] applied to
    the record of the three counters, and [parse]. *)
Variable ParserData : Type.
Variable updateData : ParserData -> Counters -> ParserData.
Variable parse : ParserData -> string -> string.

(** The host client: its state, the sizes of its three caches, the id of
    [client.user] ([None] while [client.user] is [null], that is before
    login), and [client.user.setActivity], which receives the reference to
    the activity object (and so sees the store), may change the host, and
    returns a promise. *)
Variable Host Presence HostError : Type.
Variable cache_sizes : Host -> Counters.
Variable user_id : Host -> option string.
Variable setActivity : loc -> store -> Host -> Host * Promise Presence HostError.

(** The constructor body up to [this.isReady = false]. *)
Definition constructor_fields (statuses : StatusesArg) : Exception + StatusUpdater :=
  let unseeded := {| statusUrl := None; _statuses := None; isReady := false |} in
  if truthy statuses then
    match statuses with
    | ArgString s =>
        if negb (isUrl s) then inl (Error "Invalid statuses URL")
        else inr {| statusUrl := Some s; _statuses := None; isReady := false |}
    | ArgArray templates =>
        inr {| statusUrl := None; _statuses := Some templates; isReady := false |}
    | _ => inl (Error "Invalid status options.")
    end
  else inr unseeded.

(** [_getStatuses] up to its first suspension or its return. *)
Definition _getStatuses (u : StatusUpdater) : InitTask :=
  match statusUrl u with
  | Some target =>
      if truthy_string target then FetchPending target
      else ThenQueued defaultStatuses
  | None => ThenQueued defaultStatuses
  end.

(** [_getStatuses] resumed after [Axios.get] fulfilled with [data]. *)
Definition _getStatuses_resume (u : StatusUpdater) (data : list ActivityOptions)
  : StatusUpdater * InitTask :=
  ({| statusUrl := statusUrl u; _statuses := Some data; isReady := isReady u |},
   ThenQueued data).

(** [_init]: calls [_getStatuses] and registers the two reactions. *)
Definition _init (u : StatusUpdater) : InitTask := _getStatuses u.

(** [new StatusUpdater(client, parser, statuses)]. *)
Definition constructor (statuses : StatusesArg) : Exception + (StatusUpdater * InitTask) :=
  match constructor_fields statuses with
  | inl e => inl e
  | inr u => inr (u, _init u)
  end.

(** The [.then] reaction of [_init]. *)
Definition init_then (u : StatusUpdater) : StatusUpdater :=
  {| statusUrl := statusUrl u; _statuses := _statuses u; isReady := true |}.

(** The [.catch] reaction of [_init]: [throw err || new Error(...)]. *)
Definition init_catch (reason : option Exception) : Exception :=
  match reason with
  | Some e => e
  | None => Error "[StatusUpdater] Failed to initialize."
  end.

(** The getter [statuses]. *)
Definition statuses (u : StatusUpdater) : option (list ActivityOptions) :=
  if negb (isReady u) then Some defaultStatuses else _statuses u.

(** [_updateParserData]. *)
Definition _updateParserData (client : Host) (pd : ParserData) : ParserData :=
  updateData pd (cache_sizes client).

(** [arr[i]] for a number [i] that holds an integer. *)
Definition array_get {A} (arr : list A) (i : Z) : option A :=
  if 0 <=? i then arr !! Z.to_nat i else None.

(** [_chooseActivity], with [r] the value [Math.random()] returns. *)
Definition _chooseActivity (u : StatusUpdater) (pd : ParserData) (r : unit_double)
  : Exception + ActivityOptions :=
  match statuses u with
  | None => inl TypeError
  | Some pool =>
      match array_get pool (double_tilde_product r (Z.of_nat (length pool))) with
      | None => inl TypeError
      | Some info =>
          inr {| type := Some (string_or (type info) "PLAYING");
                 name := string_or (Some (parse pd (name info))) "a game";
                 url := url info;
                 shardID := shardID info |}
      end
  end.

(** What one call of [updateStatus] leaves behind and hands back. *)
Record UpdateResult : Type := {
  parser_after : ParserData;
  store_after : store;
  host_after : Host;
  outcome : Exception + (loc * Promise Presence HostError)
    (* thrown, or the object handed to the host and the promise returned *)
}.

(** [if (shardId) $activity.shardID = shardId]. *)
Definition attach_shard (shardId : option Z) (l : loc) (h : store) : store :=
  match shardId with
  | Some n => if truthy_number n then alter (with_shardID n) l h else h
  | None => h
  end.

(** [updateStatus(activity, shardId)].  An explicit activity is a reference
    into the caller's store; a chosen one is a new object.  The member
    access [this.client.user.setActivity] comes last: on a client without a
    user it throws after the parser was refreshed, the activity resolved and
    the shard id written.  (Pools are held by value: a caller that passes an
    element of the array [statuses] returned back in as the explicit
    activity is not covered.) *)
Definition updateStatus (u : StatusUpdater) (client : Host) (pd : ParserData)
    (h : store) (r : unit_double) (activity : option loc) (shardId : option Z)
  : UpdateResult :=
  let pd' := _updateParserData client pd in
  let chosen : Exception + (loc * store) :=
    match activity with
    | Some l => inr (l, h)
    | None =>
        match _chooseActivity u pd' r with
        | inl e => inl e
        | inr details => let l := fresh (dom h) in inr (l, <[l := details]> h)
        end
    end in
  match chosen with
  | inl e =>
      {| parser_after := pd'; store_after := h; host_after := client;
         outcome := inl e |}
  | inr (l, h1) =>
      let h2 := attach_shard shardId l h1 in
      match user_id client with
      | None =>
          {| parser_after := pd'; store_after := h2; host_after := client;
             outcome := inl TypeError |}
      | Some _ =>
          let '(client', returned) := setActivity l h2 client in
          {| parser_after := pd'; store_after := h2; host_after := client';
             outcome := inr (l, returned) |}
      end
  end.

End StatusUpdaterClass.

Arguments _updateParserData {ParserData} updateData {Host} cache_sizes client pd.
Arguments _chooseActivity {ParserData} parse u pd r.
Arguments UpdateResult ParserData Host Presence HostError : clear implicits.
Arguments parser_after {ParserData Host Presence HostError} _.
Arguments store_after {ParserData Host Presence HostError} _.
Arguments host_after {ParserData Host Presence HostError} _.
Arguments outcome {ParserData Host Presence HostError} _.
Arguments updateStatus {ParserData} updateData parse {Host Presence HostError}
  cache_sizes user_id setActivity u client pd h r activity shardId.

(** ** The updater over its lifetime *)

Section Lifetime.

Variable ParserData : Type.
Variable updateData : ParserData -> Counters -> ParserData.
Variable parse : ParserData -> string -> string.
Variable Host Presence HostError : Type.
Variable cache_sizes : Host -> Counters.
Variable user_id : Host -> option string.
Variable setActivity : loc -> store -> Host -> Host * Promise Presence HostError.

(** One updater, the promise chain of its initializer, the parser's data,
    the host client and the activity objects of the process. *)
Record World : Type := {
  updater : StatusUpdater;
  task : InitTask;
  parser_data : ParserData;
  host : Host;
  objects : store
}.

(** What the event loop can run against a constructed updater: the two
    ways the HTTP request settles, a queued promise reaction, and the two
    public members being used by the host. *)
Inductive Event : Type :=
  | FetchFulfilled (data : list ActivityOptions)
  | FetchRejected (reason : option Exception)
  | RunReaction
  | ReadStatuses
  | CallUpdateStatus (r : unit_double)
      (activity : option loc) (shardId : option Z).

Definition deliver (e : Event) (w : World) : World :=
  match e, task w with
  | FetchFulfilled data, FetchPending _ =>
      let '(u', t') := _getStatuses_resume (updater w) data in
      {| updater := u'; task := t'; parser_data := parser_data w;
         host := host w; objects := objects w |}
  | FetchRejected reason, FetchPending _ =>
      {| updater := updater w; task := CatchQueued reason;
         parser_data := parser_data w; host := host w; objects := objects w |}
  | RunReaction, ThenQueued _ =>
      {| updater := init_then (updater w); task := InitDone;
         parser_data := parser_data w; host := host w; objects := objects w |}
  | RunReaction, CatchQueued reason =>
      {| updater := updater w; task := InitFailed (init_catch reason);
         parser_data := parser_data w; host := host w; objects := objects w |}
  | CallUpdateStatus r activity shardId, _ =>
      let res := updateStatus updateData parse cache_sizes user_id setActivity
                   (updater w) (host w) (parser_data w) (objects w)
                   r activity shardId in
      {| updater := updater w; task := task w;
         parser_data := parser_after res; host := host_after res;
         objects := store_after res |}
  | _, _ => w
  end.

Definition run (es : list Event) (w : World) : World :=
  foldl (fun w e => deliver e w) w es.

(** The worlds visited while [es] runs, the first one included. *)
Fixpoint visited (es : list Event) (w : World) : list World :=
  match es with
  | [] => [w]
  | e :: es' => w :: visited es' (deliver e w)
  end.

(** How often consecutive flag values go from [false] to [true], and from
    [true] to [false]. *)
Fixpoint rises (flags : list bool) : nat :=
  match flags with
  | false :: ((true :: _) as rest) => S (rises rest)
  | _ :: rest => rises rest
  | [] => 0%nat
  end.

Fixpoint falls (flags : list bool) : nat :=
  match flags with
  | true :: ((false :: _) as rest) => S (falls rest)
  | _ :: rest => falls rest
  | [] => 0%nat
  end.

Definition ready_flags (ws : list World) : list bool :=
  map (fun w => isReady (updater w)) ws.

Definition is_fetch_fulfilled (e : Event) : bool :=
  match e with FetchFulfilled _ => true | _ => false end.

Definition is_fetch_pending (t : InitTask) : bool :=
  match t with FetchPending _ => true | _ => false end.

End Lifetime.

Arguments World ParserData Host : clear implicits.
Arguments updater {ParserData Host} _.
Arguments task {ParserData Host} _.
Arguments parser_data {ParserData Host} _.
Arguments host {ParserData Host} _.
Arguments objects {ParserData Host} _.
Arguments deliver {ParserData} updateData parse {Host Presence HostError}
  cache_sizes user_id setActivity e w.
Arguments run {ParserData} updateData parse {Host Presence HostError}
  cache_sizes user_id setActivity es w.
Arguments visited {ParserData} updateData parse {Host Presence HostError}
  cache_sizes user_id setActivity es w.
Arguments ready_flags {ParserData Host} ws.

(** The world right after [new StatusUpdater(client, parser, statuses)]
    returned. *)
Definition boot {ParserData Host : Type} (isUrl : string -> bool)
    (statuses : StatusesArg) (pd : ParserData) (client : Host) (h : store)
  : Exception + World ParserData Host :=
  match constructor isUrl statuses with
  | inl e => inl e
  | inr (u, t) =>
      inr {| updater := u; task := t; parser_data := pd;
             host := client; objects := h |}
  end.

(** The arguments the specification says the constructor must reject: a
    string that is not a valid URL, and anything that is neither an array, a
    string nor [undefined]. *)
Definition must_reject (isUrl : string -> bool) (v : StatusesArg) : bool :=
  match v with
  | ArgString s => negb (isUrl s)
  | ArgArray _ | ArgUndefined => false
  | ArgNull | ArgBoolean _ | ArgNumber _ | ArgObject => true
  end.

Definition throws {A} (r : Exception + A) : bool :=
  match r with inl _ => true | inr _ => false end.

(** The initializer's request failed and was not answered otherwise. *)
Definition has_failed (t : InitTask) : bool :=
  match t with
  | CatchQueued _ | InitFailed _ => true
  | _ => false
  end.

Definition settles_fetch (e : Event) : bool :=
  match e with
  | FetchFulfilled _ | FetchRejected _ => true
  | _ => false
  end.

(** ** The class [WebhookLogger] *)

(** The embed and the message options, as [_write] fills them in; a field
    that no setter touched is [None]. *)
Record MessageEmbed (Color Time : Type) : Type := {
  timestamp : option Time;
  color : option Color;
  footer : option string;
  description : option string;
  title : option string
}.
Arguments timestamp {Color Time} _.
Arguments color {Color Time} _.
Arguments footer {Color Time} _.
Arguments description {Color Time} _.
Arguments title {Color Time} _.

(** [new MessageAttachment(Buffer.from(text), name)]. *)
Record MessageAttachment : Type := {
  attachment : string;
  attachment_name : string
}.

Record WebhookMessageOptions (Color Time : Type) : Type := {
  avatarURL : string;
  embeds : list (MessageEmbed Color Time);
  username : string;
  files : option (list MessageAttachment)
}.
Arguments avatarURL {Color Time} _.
Arguments embeds {Color Time} _.
Arguments username {Color Time} _.
Arguments files {Color Time} _.

(** How the text of a log entry reaches the webhook. *)
Inductive Delivery : Type := Inline | AsFile.

Definition delivery {Color Time} (o : WebhookMessageOptions Color Time) : Delivery :=
  match files o with
  | None => Inline
  | Some _ => AsFile
  end.

Section WebhookLoggerClass.

(** [LogLevel] is a numeric enum; [SILLY] is the level the field
    [_webhookLevel] is initialised to. *)
Variable SILLY : Z.

(** [colors[level][2]], [Logger._prepareText] and [Logger._processTag] come
    from modules outside this file; [now] is the clock read by
    [setTimestamp()]. *)
Variable Color Time Data : Type.
Variable colors2 : Z -> Color.
Variable _prepareText : list Data -> string.
Variable _processTag : string.

Definition _webhookLevel : Z := SILLY.

(** The call [super._write(level, `Webhook][${tag}`, data)]. *)
Record ConsoleWrite : Type := {
  console_level : Z;
  console_tag : string;
  console_data : list Data
}.

(** The effects of one [_write]: the console entry, and the options given
    to [webhook.send] unless the level gate returned first. *)
Record Written : Type := {
  to_console : ConsoleWrite;
  to_webhook : option (WebhookMessageOptions Color Time)
}.

Definition _write (now : Time) (level : Z) (tag : string) (data : list Data) : Written :=
  let console :=
    {| console_level := level; console_tag := ("Webhook][" ++ tag)%string;
       console_data := data |} in
  if _webhookLevel <? level then
    {| to_console := console; to_webhook := None |}
  else
    let cleaned := _prepareText data in
    let embed0 :=
      {| timestamp := Some now; color := Some (colors2 level);
         footer := Some _processTag; description := None; title := None |} in
    let '(embed1, files1) :=
      if (String.length cleaned <=? 2048)%nat then
        ({| timestamp := timestamp embed0; color := color embed0;
            footer := footer embed0; description := Some cleaned;
            title := title embed0 |}, None)
      else
        ({| timestamp := timestamp embed0; color := color embed0;
            footer := footer embed0;
            description := Some "Data is too long, falling back to file.";
            title := title embed0 |},
         Some [ {| attachment := cleaned; attachment_name := "file.txt" |} ]) in
    let embed2 :=
      if truthy_string tag then
        {| timestamp := timestamp embed1; color := color embed1;
           footer := footer embed1; description := description embed1;
           title := Some tag |}
      else embed1 in
    {| to_console := console;
       to_webhook := Some
         {| avatarURL := "https://cdn.discordapp.com/avatars/237993001828352001/a_04c3221e95f15ebcec7fbb96c6ec1146.gif?size=512";
            embeds := [embed2];
            username := "Emoji Stealer Status";
            files := files1 |} |}.

End WebhookLoggerClass.

Arguments to_console {Color Time Data} _.
Arguments to_webhook {Color Time Data} _.
Arguments _write SILLY {Color Time Data} colors2 _prepareText _processTag now level tag data.

(** The text a sent message carries: the attached file's content when there
    is one, the embed's description otherwise. *)
Definition delivered_text {Color Time} (o : WebhookMessageOptions Color Time)
  : option string :=
  match files o with
  | Some (file :: _) => Some (attachment file)
  | Some [] => None
  | None =>
      match embeds o with
      | embed :: _ => description embed
      | [] => None
      end
  end.

(** ** The class [BotClient] (src/client/BotClient.ts) *)

(** The second argument of [user.setActivity(name, details)] as
    [changeStatus] builds it: a [type], and a [url] only when one was set. *)
Record StatusDetails : Type := {
  details_type : string;
  details_url : option string
}.

(** The [axios] instance created for the statistics API. *)
Record AxiosInstance : Type := {
  baseURL : string;
  timeout : Z;
  authorization : string
}.

(** The body of the PATCH request, by key. *)
Record StatsBody : Type := {
  body_guilds : Z;
  body_channels : Z;
  body_users : Z
}.

Record PatchRequest : Type := {
  via : AxiosInstance;
  path : string;
  body : StatsBody
}.

Section BotClientClass.

(** [configFile.prefix], the host library's client state with its three
    caches, the id of [client.user] ([None] while [client.user] is [null],
    that is before login), and [user.setActivity(name, details)]. *)
Variable prefix : string.
Variable Host Presence HostError : Type.
Variable cache_sizes : Host -> Counters.
Variable user_id : Host -> option string.
Variable setActivityNamed :
  string -> StatusDetails -> Host -> Host * Promise Presence HostError.

(** The part of the constructor that sets [this.botstat]. *)
Definition make_botstat (botstatToken : option string) : option AxiosInstance :=
  match botstatToken with
  | Some token =>
      if truthy_string token && negb (String.length token =? 0)%nat then
        Some {| baseURL := "https://tmuniversal-api.herokuapp.com/api/v1";
                timeout := 5000;
                authorization := ("Bearer " ++ token)%string |}
      else None
  | None => None
  end.

(** The array [statuses] that [changeStatus] builds from the cache sizes. *)
Definition inline_statuses (c : Counters) : list ActivityOptions := [
  {| type := Some "PLAYING"; name := ("with " ++ pretty (users c) ++ " users")%string;
     url := None; shardID := None |};
  {| type := Some "LISTENING"; name := (pretty (users c) ++ " users")%string;
     url := None; shardID := None |};
  {| type := Some "WATCHING"; name := ("over " ++ pretty (users c) ++ " users")%string;
     url := None; shardID := None |};
  {| type := Some "PLAYING"; name := ("in " ++ pretty (guilds c) ++ " servers")%string;
     url := None; shardID := None |};
  {| type := Some "WATCHING"; name := "tmuniversal.eu"; url := None; shardID := None |};
  {| type := Some "PLAYING"; name := (prefix ++ "help for help")%string;
     url := None; shardID := None |};
  {| type := Some "WATCHING"; name := (pretty (guilds c) ++ " servers")%string;
     url := None; shardID := None |}
].

(** What one call of [changeStatus] does: the call made to the host, if the
    body got that far, the host afterwards, and how the promise of the
    [async] method settles (the host's promise is neither awaited nor
    returned). *)
Record StatusChange : Type := {
  requested : option (string * StatusDetails);
  bot_after : Host;
  completion : Promise unit Exception
}.

(** [changeStatus(options)], with [r] the value [Math.random()] returns when
    it is called. *)
Definition changeStatus (client : Host) (r : unit_double)
    (options : option ActivityOptions) : StatusChange :=
  let statuses := inline_statuses (cache_sizes client) in
  let chooseStatus :=
    match options with
    | Some o => Some o
    | None =>
        array_get statuses (double_tilde_product r (Z.of_nat (length statuses)))
    end in
  match chooseStatus with
  | None =>
      {| requested := None; bot_after := client; completion := Rejected TypeError |}
  | Some chosen =>
      let details :=
        {| details_type := string_or (type chosen) "PLAYING";
           details_url :=
             match url chosen with
             | Some target => if truthy_string target then Some target else None
             | None => None
             end |} in
      match user_id client with
      | None =>
          {| requested := None; bot_after := client;
             completion := Rejected TypeError |}
      | Some _ =>
          {| requested := Some (name chosen, details);
             bot_after := (setActivityNamed (name chosen) details client).1;
             completion := Fulfilled tt |}
      end
  end.

(** The HTTP layer: the outcome of a PATCH request. *)
Variable Response HttpError : Type.
Variable patch : PatchRequest -> Promise Response HttpError.

(** What [updateBotStats] writes to the logger and to the console. *)
Inductive LogEntry : Type :=
  | LoggerWarn (tag message : string)
  | LoggerError (tag : string) (error : HttpError)
  | ConsoleInfo (message : string).

(** The effects of one [updateBotStats] and the promise it returns. *)
Record StatsUpload : Type := {
  sent : list PatchRequest;
  logged : list LogEntry;
  upload_returned : Promise unit Exception
}.

(** [updateBotStats(guilds, channels, users)], for a client whose [botstat]
    field is [botstat]. *)
Definition updateBotStats (botstat : option AxiosInstance) (client : Host)
    (guilds channels users : Z) : StatsUpload :=
  match botstat, user_id client with
  | None, _ =>
      {| sent := [];
         logged := [LoggerWarn "API" "Botstat API is disabled"];
         upload_returned := Fulfilled tt |}
  | Some _, None =>
      {| sent := []; logged := []; upload_returned := Rejected TypeError |}
  | Some instance, Some id =>
      let request :=
        {| via := instance; path := ("/botstat/" ++ id)%string;
           body := {| body_guilds := guilds; body_channels := channels;
                      body_users := users |} |} in
      match patch request with
      | Fulfilled _ =>
          {| sent := [request];
             logged := [ConsoleInfo
                          ("Uploaded user base stats to API: " ++ pretty guilds
                           ++ " guilds, " ++ pretty channels ++ " channels, "
                           ++ pretty users ++ " users.")%string];
             upload_returned := Fulfilled tt |}
      | Rejected e =>
          {| sent := [request];
             logged := [LoggerError "API" e];
             upload_returned := Fulfilled tt |}
      end
  end.

(** The listener that [start] registers for the event [updateStats]. *)
Definition on_updateStats (botstat : option AxiosInstance) (client : Host)
  : StatsUpload :=
  updateBotStats botstat client
    (guilds (cache_sizes client)) (channels (cache_sizes client))
    (users (cache_sizes client)).

End BotClientClass.

Arguments requested {Host} _.
Arguments bot_after {Host} _.
Arguments completion {Host} _.
Arguments changeStatus prefix {Host Presence HostError} cache_sizes user_id
  setActivityNamed client r options.
Arguments LoggerWarn {HttpError} tag message.
Arguments LoggerError {HttpError} tag error.
Arguments ConsoleInfo {HttpError} message.
Arguments sent {HttpError} _.
Arguments logged {HttpError} _.
Arguments upload_returned {HttpError} _.
Arguments updateBotStats {Host} user_id {Response HttpError} patch botstat client
  guilds channels users.
Arguments on_updateStats {Host} cache_sizes user_id {Response HttpError} patch
  botstat client.

(** ** Stand-ins for the collaborators, for concrete runs *)

Module Sample.

(** Modelled from the spec: [VariableParser] (../util/VariableParser is not
    among the sources).  The held data maps a token name to its rendered
    value; [updateData] merges (new values overwrite, other keys persist);
    [parse] replaces every [{identifier}] whose identifier is known and
    leaves every other character, unknown placeholders included, as it is. *)
Abbreviation VariableData := (gmap string string).

Definition updateData (d : VariableData) (c : Counters) : VariableData :=
  <["users" := pretty (users c)]>
    (<["guilds" := pretty (guilds c)]>
       (<["channels" := pretty (channels c)]> d)).

(** [pending] is the identifier read since the last opening brace. *)
Fixpoint parse_from (d : VariableData) (pending : option string) (s : string) : string :=
  match s with
  | EmptyString =>
      match pending with
      | None => ""
      | Some ident => ("{" ++ ident)%string
      end
  | String ch rest =>
      match pending with
      | None =>
          if Ascii.eqb ch "{"%char then parse_from d (Some "") rest
          else String ch (parse_from d None rest)
      | Some ident =>
          if Ascii.eqb ch "}"%char then
            match d !! ident with
            | Some v => (v ++ parse_from d None rest)%string
            | None => ("{" ++ ident ++ "}" ++ parse_from d None rest)%string
            end
          else if Ascii.eqb ch "{"%char then
            ("{" ++ ident ++ parse_from d (Some "") rest)%string
          else parse_from d (Some (ident ++ String ch "")%string) rest
      end
  end.

Definition parse (d : VariableData) (template : string) : string :=
  parse_from d None template.

(** Modelled from the spec: [isUrl] (../util/Validators is not among the
    sources), a syntactic check; here: an http or https scheme followed by
    at least one character. *)
Definition isUrl (s : string) : bool :=
  (String.prefix "http://" s && (7 <? String.length s)%nat)
  || (String.prefix "https://" s && (8 <? String.length s)%nat).

(** A host that records every activity it applies, refuses to show a
    presence named "offline", and rejects a dangling reference. *)
Record Host : Type := {
  sizes : Counters;
  user : option string;
  applied : list ActivityOptions
}.

Definition setActivity (l : loc) (h : store) (client : Host)
  : Host * Promise ActivityOptions string :=
  match h !! l with
  | Some a =>
      if String.eqb (name a) "offline" then (client, Rejected "refused")
      else ({| sizes := sizes client; user := user client;
               applied := a :: applied client |},
            Fulfilled a)
  | None => (client, Rejected "unknown activity")
  end.

Definition counters : Counters := {| users := 42; guilds := 3; channels := 7 |}.
Definition client : Host :=
  {| sizes := counters; user := Some "237993001828352001"; applied := [] |}.

(** The same client before login. *)
Definition offline_client : Host :=
  {| sizes := counters; user := None; applied := [] |}.

(** 0.5, and the largest double below 1. *)
Definition half : unit_double := UnitDouble (2 ^ 52) 53.
Definition almost_one : unit_double := UnitDouble (2 ^ 53 - 1) 53.

Definition template (k : option string) (n : string) : ActivityOptions :=
  {| type := k; name := n; url := None; shardID := None |}.

(** A logger configuration: levels 0 (none) to 6 (silly), entries are lists
    of strings joined by spaces. *)
Definition SILLY : Z := 6.
Definition colors2 (level : Z) : Z := 65536 * level.
Definition _prepareText (data : list string) : string := String.concat " " data.

Fixpoint filler (n : nat) : string :=
  match n with
  | O => ""
  | S n' => String "x" (filler n')
  end.

Definition write (level : Z) (tag : string) (data : list string)
  : Written Z Z string :=
  _write SILLY colors2 _prepareText "pid 1" 1700000000 level tag data.

End Sample.

(** An updater that is READY with [pool], and one status update by it
    against the sample collaborators. *)
Definition sample_updater (pool : list ActivityOptions) : StatusUpdater :=
  {| statusUrl := None; _statuses := Some pool; isReady := true |}.

Definition sample_updateStatus (pool : list ActivityOptions) (h : store)
    (activity : option loc) (shardId : option Z)
  : UpdateResult Sample.VariableData Sample.Host ActivityOptions string :=
  updateStatus Sample.updateData Sample.parse Sample.sizes Sample.user Sample.setActivity
    (sample_updater pool) Sample.client ∅ h Sample.half activity shardId.


(** The world right after constructing an updater from a URL, and the one
    right after constructing it from the empty string, against the sample
    collaborators. *)
Definition sample_world_from_url : World Sample.VariableData Sample.Host :=
  {| updater := {| statusUrl := Some "https://example.com/statuses.json";
                   _statuses := None; isReady := false |};
     task := FetchPending "https://example.com/statuses.json";
     parser_data := ∅; host := Sample.client; objects := ∅ |}.

Definition sample_world_unseeded : World Sample.VariableData Sample.Host :=
  {| updater := {| statusUrl := None; _statuses := None; isReady := false |};
     task := ThenQueued defaultStatuses;
     parser_data := ∅; host := Sample.client; objects := ∅ |}.

Definition sample_run (es : list Event)
    (w : World Sample.VariableData Sample.Host)
  : World Sample.VariableData Sample.Host :=
  run Sample.updateData Sample.parse Sample.sizes Sample.user Sample.setActivity es w.

(** The two messages the sample logger sends for a short and for a long
    entry of level 3 tagged CLIENT. *)
Definition sample_embed (text : string) : MessageEmbed Z Z :=
  {| timestamp := Some 1700000000; color := Some 196608; footer := Some "pid 1";
     description := Some text; title := Some "CLIENT" |}.

Definition sample_inline_message : WebhookMessageOptions Z Z :=
  {| avatarURL := "https://cdn.discordapp.com/avatars/237993001828352001/a_04c3221e95f15ebcec7fbb96c6ec1146.gif?size=512";
     embeds := [sample_embed "shard ready"];
     username := "Emoji Stealer Status";
     files := None |}.

Definition sample_file_message : WebhookMessageOptions Z Z :=
  {| avatarURL := "https://cdn.discordapp.com/avatars/237993001828352001/a_04c3221e95f15ebcec7fbb96c6ec1146.gif?size=512";
     embeds := [sample_embed "Data is too long, falling back to file."];
     username := "Emoji Stealer Status";
     files := Some [ {| attachment := Sample.filler 2049;
                        attachment_name := "file.txt" |} ] |}.

Module SampleBot.

(** A bot client with its cache sizes, its user id once logged in, and the
    presences it was asked to show, latest first. *)
Record Bot : Type := {
  bot_sizes : Counters;
  bot_user : option string;
  shown : list (string * StatusDetails)
}.

Definition setActivityNamed (n : string) (d : StatusDetails) (b : Bot)
  : Bot * Promise string string :=
  ({| bot_sizes := bot_sizes b; bot_user := bot_user b;
      shown := (n, d) :: shown b |},
   Fulfilled n).

Definition bot : Bot :=
  {| bot_sizes := Sample.counters; bot_user := Some "237993001828352001";
     shown := [] |}.

(** A statistics API that refuses a negative guild count. *)
Definition patch (request : PatchRequest) : Promise unit string :=
  if body_guilds (body request) <? 0 then Rejected "HTTP 400" else Fulfilled tt.

End SampleBot.

(** * Properties *)

(** ** Numbers *)

(** 0.3333333333333333 * 3 is exactly 1 in binary64 (a tie rounded to even),
    so the selected index is 1 although the real product is below 1. *)
Example third_times_three :
  double_tilde_product (UnitDouble 6004799503160661 54) 3 = 1.
Proof. reflexivity. Qed.

Example half_times_seven :
  double_tilde_product (UnitDouble (2 ^ 52) 53) 7 = 3.
Proof. reflexivity. Qed.

Lemma round53_nonneg n : 0 <= n -> 0 <= round53 n.
Proof.
  intros Hn. unfold round53.
  destruct (n <? 2 ^ 53) eqn:Hsmall; [exact Hn|].
  apply Z.ltb_ge in Hsmall.
  assert (Hlog : 53 <= Z.log2 n) by (apply Z.log2_le_pow2; lia).
  set (s := Z.log2 n - 52).
  assert (Hq : 0 <= Z.shiftr n s) by (apply Z.shiftr_nonneg; lia).
  rewrite Z.shiftl_mul_pow2 by lia.
  assert (0 < 2 ^ s) by (apply Z.pow_pos_nonneg; lia).
  repeat case_match; nia.
Qed.

(** The rounded product never reaches [2^53 * len]: rounding up adds at
    most half a unit in the last place, which is below [len]. *)
Lemma round53_product_lt sig len :
  0 <= sig < 2 ^ 53 -> 0 < len -> round53 (sig * len) < 2 ^ 53 * len.
Proof.
  intros Hsig Hlen. unfold round53.
  set (n := sig * len).
  assert (Hn : 0 <= n <= (2 ^ 53 - 1) * len) by (subst n; nia).
  destruct (n <? 2 ^ 53) eqn:Hsmall.
  { apply Z.ltb_lt in Hsmall. nia. }
  apply Z.ltb_ge in Hsmall.
  assert (Hlog : 53 <= Z.log2 n) by (apply Z.log2_le_pow2; lia).
  set (s := Z.log2 n - 52).
  assert (Hs : 1 <= s) by (subst s; lia).
  assert (Hpow : 0 < 2 ^ s) by (apply Z.pow_pos_nonneg; lia).
  assert (Hhalf : 2 ^ s = 2 * 2 ^ (s - 1)).
  { replace s with (Z.succ (s - 1)) at 1 by lia. apply Z.pow_succ_r. lia. }
  (* half a unit in the last place is below [len] *)
  assert (Hulp : 2 ^ (s - 1) < len).
  { destruct (Z.log2_spec n) as [Hlo _]; [lia|].
    assert (Hsplit : 2 ^ Z.log2 n = 2 ^ 53 * 2 ^ (s - 1)).
    { rewrite <- Z.pow_add_r by lia. f_equal. subst s. lia. }
    assert (0 < 2 ^ 53) by (apply Z.pow_pos_nonneg; lia).
    nia. }
  rewrite Z.shiftl_mul_pow2, Z.shiftr_div_pow2 by lia.
  pose proof (Z.div_mod n (2 ^ s) ltac:(lia)) as Hdm.
  pose proof (Z.mod_pos_bound n (2 ^ s) Hpow) as Hmod.
  set (q := n / 2 ^ s) in *. set (rest := n mod 2 ^ s) in *.
  destruct (rest <? 2 ^ (s - 1)) eqn:H1; [nia|].
  apply Z.ltb_ge in H1.
  assert (Hup : (q + 1) * 2 ^ s < 2 ^ 53 * len) by nia.
  destruct (2 ^ (s - 1) <? rest); [exact Hup|].
  destruct (Z.even q); [nia | exact Hup].
Qed.

Lemma truncate_range r len :
  is_unit_double r = true -> 0 < len -> 0 <= truncate r len < len.
Proof.
  unfold is_unit_double. rewrite !andb_true_iff.
  intros [[[H1 H2] H3] H4] Hlen.
  apply Z.leb_le in H1, H3, H4. apply Z.ltb_lt in H2.
  unfold truncate, times_length.
  rewrite Z.shiftr_div_pow2 by lia.
  pose proof (round53_nonneg (significand r * len) ltac:(nia)) as Hge.
  pose proof (round53_product_lt (significand r) len ltac:(lia) Hlen) as Hlt.
  assert (Hp : 0 < 2 ^ scale r) by (apply Z.pow_pos_nonneg; lia).
  assert (Hmono : 2 ^ 53 <= 2 ^ scale r) by (apply Z.pow_le_mono_r; lia).
  split.
  - apply Z.div_pos; lia.
  - apply Z.div_lt_upper_bound; [lia|]. nia.
Qed.

Lemma ToInt32_small z : 0 <= z < 2 ^ 31 -> ToInt32 z = z.
Proof.
  intros Hz. unfold ToInt32.
  rewrite Z.mod_small by lia.
  destruct (z <? 2 ^ 31) eqn:E; [reflexivity|].
  apply Z.ltb_ge in E. lia.
Qed.

Lemma double_tilde_product_range r len :
  is_unit_double r = true -> 0 < len <= 2 ^ 31 ->
  double_tilde_product r len = truncate r len /\
  0 <= double_tilde_product r len < len.
Proof.
  intros Hr Hlen.
  pose proof (truncate_range r len Hr ltac:(lia)) as Ht.
  unfold double_tilde_product.
  rewrite ToInt32_small by lia. split; [reflexivity | exact Ht].
Qed.

(** ** Truthiness and array reads *)

Lemma truthy_string_false s : truthy_string s = false <-> s = "".
Proof.
  unfold truthy_string. rewrite negb_false_iff. apply String.eqb_eq.
Qed.

Lemma truthy_string_true s : truthy_string s = true <-> s <> "".
Proof.
  unfold truthy_string. rewrite negb_true_iff. apply String.eqb_neq.
Qed.

Lemma truthy_number_true n : truthy_number n = true <-> n <> 0.
Proof.
  unfold truthy_number. rewrite negb_true_iff. apply Z.eqb_neq.
Qed.

Lemma string_or_nonempty x d : d <> "" -> string_or x d <> "".
Proof.
  intros Hd. unfold string_or.
  destruct x as [s|]; [|exact Hd].
  destruct (truthy_string s) eqn:E; [|exact Hd].
  by apply truthy_string_true.
Qed.

Lemma string_or_keep s d : s <> "" -> string_or (Some s) d = s.
Proof.
  intros Hs. unfold string_or.
  by apply truthy_string_true in Hs as ->.
Qed.

Lemma string_or_default x d : x = None \/ x = Some "" -> string_or x d = d.
Proof. by intros [-> | ->]. Qed.

Lemma array_get_in_range {A} (arr : list A) i :
  0 <= i < Z.of_nat (length arr) -> is_Some (array_get arr i).
Proof.
  intros Hi. unfold array_get.
  destruct (0 <=? i) eqn:E; [|apply Z.leb_gt in E; lia].
  apply lookup_lt_is_Some. lia.
Qed.

Lemma array_get_Some {A} (arr : list A) i x :
  array_get arr i = Some x -> 0 <= i /\ arr !! Z.to_nat i = Some x.
Proof.
  unfold array_get. destruct (0 <=? i) eqn:E; [|discriminate].
  apply Z.leb_le in E. auto.
Qed.

(** ** Selection *)

(** C9, as stated, fails: for a pool of 2^31 + 1 templates and the largest
    random value below 1 the product truncates to 2^31, which [~~] wraps to
    -2^31, outside the pool. *)
Lemma C9_index_wraps_beyond_int32 :
  is_unit_double Sample.almost_one = true /\
  double_tilde_product Sample.almost_one (2 ^ 31 + 1) = - 2 ^ 31 /\
  ~ (0 <= double_tilde_product Sample.almost_one (2 ^ 31 + 1) < 2 ^ 31 + 1).
Proof.
  split; [reflexivity|]. split; [reflexivity|].
  vm_compute. intros [H _]. by apply H.
Qed.

(** C9 (amended): for every non-empty pool of at most 2^31 templates and
    every random value [r] in [0,1), the index [~~(r * length)] computed by
    [_chooseActivity] lies in [0, length), and the template read at that
    index is defined. *)
Theorem C9_index_in_pool (pool : list ActivityOptions) (r : unit_double) :
  pool <> [] ->
  Z.of_nat (length pool) <= 2 ^ 31 ->
  is_unit_double r = true ->
  0 <= double_tilde_product r (Z.of_nat (length pool)) < Z.of_nat (length pool) /\
  is_Some (array_get pool (double_tilde_product r (Z.of_nat (length pool)))).
Proof.
  intros Hne Hlen Hr.
  assert (Hpos : 0 < Z.of_nat (length pool)) by (destruct pool; [done | simpl; lia]).
  destruct (double_tilde_product_range r _ Hr (conj Hpos Hlen)) as [_ Hrange].
  split; [exact Hrange | by apply array_get_in_range].
Qed.

Lemma C9_index_in_pool_witness :
  0 <= double_tilde_product Sample.almost_one (Z.of_nat (length defaultStatuses))
    < Z.of_nat (length defaultStatuses) /\
  is_Some (array_get defaultStatuses
             (double_tilde_product Sample.almost_one (Z.of_nat (length defaultStatuses)))).
Proof.
  apply (C9_index_in_pool defaultStatuses Sample.almost_one).
  - discriminate.
  - vm_compute. discriminate.
  - reflexivity.
Defined.

Section Selection.

Context {ParserData : Type} (parse : ParserData -> string -> string).

(** What [_chooseActivity] returns for the template [info]. *)
Lemma chooseActivity_at (u : StatusUpdater) pd r pool info :
  statuses u = Some pool ->
  array_get pool (double_tilde_product r (Z.of_nat (length pool))) = Some info ->
  _chooseActivity parse u pd r =
    inr {| type := Some (string_or (type info) "PLAYING");
           name := string_or (Some (parse pd (name info))) "a game";
           url := url info; shardID := shardID info |}.
Proof. intros Hpool Hget. unfold _chooseActivity. by rewrite Hpool, Hget. Qed.

Lemma chooseActivity_throws_iff (u : StatusUpdater) pd r :
  _chooseActivity parse u pd r = inl TypeError <->
  match statuses u with
  | None => True
  | Some pool =>
      array_get pool (double_tilde_product r (Z.of_nat (length pool))) = None
  end.
Proof.
  unfold _chooseActivity. destruct (statuses u) as [pool|]; [|done].
  destruct (array_get pool _); [split; discriminate | done].
Qed.

(** C2 (amended): for every non-empty pool of at most 2^31 templates that
    [statuses] returns, [_chooseActivity] returns (it does not throw) a
    copy of the template at index floor(random() * length), the product
    being the binary64 one, with kind PLAYING when the template's kind is
    unset or empty and the template's kind otherwise (so never empty), with
    the name rendered by [parse], and with the name "a game" when the
    rendered name is empty. *)
Theorem C2_chooseActivity_selects_and_renders
    (u : StatusUpdater) (pd : ParserData) (r : unit_double)
    (pool : list ActivityOptions) :
  statuses u = Some pool ->
  pool <> [] ->
  Z.of_nat (length pool) <= 2 ^ 31 ->
  is_unit_double r = true ->
  exists info details,
    pool !! Z.to_nat (truncate r (Z.of_nat (length pool))) = Some info /\
    _chooseActivity parse u pd r = inr details /\
    (exists kind, type details = Some kind /\ kind <> "") /\
    (type info = None \/ type info = Some "" -> type details = Some "PLAYING") /\
    (forall kind, type info = Some kind -> kind <> "" -> type details = Some kind) /\
    (parse pd (name info) <> "" -> name details = parse pd (name info)) /\
    (parse pd (name info) = "" -> name details = "a game") /\
    url details = url info /\
    shardID details = shardID info.
Proof.
  intros Hpool Hne Hlen Hr.
  assert (Hpos : 0 < Z.of_nat (length pool)) by (destruct pool; [done | simpl; lia]).
  destruct (double_tilde_product_range r _ Hr (conj Hpos Hlen)) as [Hfloor Hrange].
  destruct (array_get_in_range pool _ Hrange) as [info Hget].
  exists info, {| type := Some (string_or (type info) "PLAYING");
                  name := string_or (Some (parse pd (name info))) "a game";
                  url := url info; shardID := shardID info |}.
  split.
  { apply array_get_Some in Hget as [_ Hget]. by rewrite <- Hfloor. }
  split; [by apply chooseActivity_at with pool|]. simpl.
  split. { eexists; split; [reflexivity|]. by apply string_or_nonempty. }
  split. { intros Hunset. f_equal. by apply string_or_default. }
  split. { intros kind -> Hkind. f_equal. by apply string_or_keep. }
  split. { intros Hname. by apply string_or_keep. }
  split. { intros ->. reflexivity. }
  done.
Qed.

End Selection.

(** C2, as stated, fails for the empty pool: an updater constructed with the
    inline array [[]] is READY after its initializer ran, [statuses] returns
    that empty array, and [_chooseActivity] reads [undefined] at index 0 and
    throws instead of returning an activity. *)
Lemma C2_chooseActivity_throws_on_empty_pool :
  let u := {| statusUrl := None; _statuses := Some []; isReady := true |} in
  constructor Sample.isUrl (ArgArray []) =
    inr ({| statusUrl := None; _statuses := Some []; isReady := false |},
         ThenQueued defaultStatuses) /\
  init_then {| statusUrl := None; _statuses := Some []; isReady := false |} = u /\
  statuses u = Some [] /\
  _chooseActivity Sample.parse u (Sample.updateData ∅ Sample.counters) Sample.half
    = inl TypeError.
Proof. repeat split. Qed.

Lemma C2_chooseActivity_selects_and_renders_witness :
  let u := {| statusUrl := None;
              _statuses := Some [Sample.template None "with {users} users";
                                 Sample.template (Some "WATCHING") ""];
              isReady := true |} in
  exists info details,
    [Sample.template None "with {users} users"; Sample.template (Some "WATCHING") ""]
      !! Z.to_nat (truncate Sample.half 2) = Some info /\
    _chooseActivity Sample.parse u (Sample.updateData ∅ Sample.counters) Sample.half
      = inr details /\
    (exists kind, type details = Some kind /\ kind <> "") /\
    (type info = None \/ type info = Some "" -> type details = Some "PLAYING") /\
    (forall kind, type info = Some kind -> kind <> "" -> type details = Some kind) /\
    (Sample.parse (Sample.updateData ∅ Sample.counters) (name info) <> "" ->
     name details = Sample.parse (Sample.updateData ∅ Sample.counters) (name info)) /\
    (Sample.parse (Sample.updateData ∅ Sample.counters) (name info) = "" ->
     name details = "a game") /\
    url details = url info /\
    shardID details = shardID info.
Proof.
  intros u.
  apply (C2_chooseActivity_selects_and_renders Sample.parse u
           (Sample.updateData ∅ Sample.counters) Sample.half
           [Sample.template None "with {users} users";
            Sample.template (Some "WATCHING") ""]).
  - reflexivity.
  - discriminate.
  - vm_compute. discriminate.
  - reflexivity.
Defined.

(** ** Construction *)

(** C4, as stated, fails: the constructor validates its argument only under
    [if (statuses)], so the empty string (not a URL) and the falsy values
    [0], [null] and [false] (neither array, string nor undefined) are
    accepted and treated like a missing argument. *)
Lemma C4_falsy_arguments_are_accepted :
  let unseeded := ({| statusUrl := None; _statuses := None; isReady := false |},
                   ThenQueued defaultStatuses) in
  (must_reject Sample.isUrl (ArgString "") = true /\
   constructor Sample.isUrl (ArgString "") = inr unseeded) /\
  (must_reject Sample.isUrl (ArgNumber 0) = true /\
   constructor Sample.isUrl (ArgNumber 0) = inr unseeded) /\
  (must_reject Sample.isUrl ArgNull = true /\
   constructor Sample.isUrl ArgNull = inr unseeded) /\
  (must_reject Sample.isUrl (ArgBoolean false) = true /\
   constructor Sample.isUrl (ArgBoolean false) = inr unseeded).
Proof. repeat split. Qed.

(** C4 (amended): the constructor throws synchronously for every non-empty
    string that is not a valid URL and for every truthy argument that is
    neither a string nor an array; every falsy argument (undefined, null,
    false, 0, the empty string) is treated as absent and does not throw; a
    valid URL string and an array do not throw. *)
Theorem C4_constructor_validation (isUrl : string -> bool) (v : StatusesArg) :
  (forall s, v = ArgString s -> s <> "" -> isUrl s = false ->
     constructor isUrl v = inl (Error "Invalid statuses URL")) /\
  (truthy v = true -> (forall s, v <> ArgString s) -> (forall t, v <> ArgArray t) ->
     constructor isUrl v = inl (Error "Invalid status options.")) /\
  (truthy v = false ->
     constructor isUrl v =
       inr ({| statusUrl := None; _statuses := None; isReady := false |},
            ThenQueued defaultStatuses)) /\
  (forall s, v = ArgString s -> s <> "" -> isUrl s = true ->
     constructor isUrl v =
       inr ({| statusUrl := Some s; _statuses := None; isReady := false |},
            FetchPending s)) /\
  (forall t, v = ArgArray t ->
     constructor isUrl v =
       inr ({| statusUrl := None; _statuses := Some t; isReady := false |},
            ThenQueued defaultStatuses)) /\
  (throws (constructor isUrl v) = truthy v && must_reject isUrl v).
Proof.
  unfold constructor, constructor_fields, _init, _getStatuses.
  repeat split.
  - intros s -> Hs Hurl. apply truthy_string_true in Hs. simpl.
    by rewrite Hs, Hurl.
  - intros Htruthy Hstr Harr. rewrite Htruthy.
    destruct v; try done; [by destruct (Hstr s) | by destruct (Harr templates)].
  - by intros ->.
  - intros s -> Hs Hurl. apply truthy_string_true in Hs. simpl.
    by rewrite Hs, Hurl; simpl; rewrite Hs.
  - by intros t ->.
  - destruct v as [| |b|n|s|t|]; simpl; try done.
    + by destruct b.
    + by destruct (truthy_number n).
    + destruct (truthy_string s); [|done]. by destruct (isUrl s).
Qed.

Lemma C4_constructor_validation_witness :
  constructor Sample.isUrl (ArgString "not a url") = inl (Error "Invalid statuses URL") /\
  constructor Sample.isUrl ArgObject = inl (Error "Invalid status options.") /\
  constructor Sample.isUrl ArgUndefined =
    inr ({| statusUrl := None; _statuses := None; isReady := false |},
         ThenQueued defaultStatuses) /\
  constructor Sample.isUrl (ArgString "https://example.com/statuses.json") =
    inr ({| statusUrl := Some "https://example.com/statuses.json";
            _statuses := None; isReady := false |},
         FetchPending "https://example.com/statuses.json") /\
  constructor Sample.isUrl (ArgArray defaultStatuses) =
    inr ({| statusUrl := None; _statuses := Some defaultStatuses; isReady := false |},
         ThenQueued defaultStatuses).
Proof.
  split; [|split; [|split; [|split]]].
  - destruct (C4_constructor_validation Sample.isUrl (ArgString "not a url"))
      as (H & _).
    apply (H "not a url"); [reflexivity | discriminate | reflexivity].
  - destruct (C4_constructor_validation Sample.isUrl ArgObject) as (_ & H & _).
    apply H; [reflexivity | discriminate | discriminate].
  - destruct (C4_constructor_validation Sample.isUrl ArgUndefined) as (_ & _ & H & _).
    apply H. reflexivity.
  - destruct (C4_constructor_validation Sample.isUrl
                (ArgString "https://example.com/statuses.json"))
      as (_ & _ & _ & H & _).
    apply (H "https://example.com/statuses.json");
      [reflexivity | discriminate | reflexivity].
  - destruct (C4_constructor_validation Sample.isUrl (ArgArray defaultStatuses))
      as (_ & _ & _ & _ & H & _).
    apply (H defaultStatuses). reflexivity.
Defined.

(** C1: the code at the failing input.  Constructed without a pool, the
    updater's [_getStatuses] resolves to the seven defaults but never stores
    them: once the [.then] reaction has set the flag, [statuses] returns the
    unassigned field ([undefined]), not the default pool, and
    [_chooseActivity] throws. *)
Theorem C1_default_seed_statuses_undefined_when_ready (isUrl : string -> bool) :
  let u0 := {| statusUrl := None; _statuses := None; isReady := false |} in
  constructor isUrl ArgUndefined = inr (u0, ThenQueued defaultStatuses) /\
  length defaultStatuses = 7%nat /\
  statuses u0 = Some defaultStatuses /\
  isReady (init_then u0) = true /\
  statuses (init_then u0) = None /\
  statuses (init_then u0) <> Some defaultStatuses /\
  (forall (ParserData : Type) (parse : ParserData -> string -> string) pd r,
     _chooseActivity parse (init_then u0) pd r = inl TypeError).
Proof. repeat split. discriminate. Qed.

(** ** Readiness over the lifetime of an updater *)

Section LifetimeFacts.

Context {ParserData : Type}.
Context (updateData : ParserData -> Counters -> ParserData).
Context (parse : ParserData -> string -> string).
Context {Host Presence HostError : Type}.
Context (cache_sizes : Host -> Counters).
Context (user_id : Host -> option string).
Context (setActivity : loc -> store -> Host -> Host * Promise Presence HostError).

Local Abbreviation deliver' := (deliver updateData parse cache_sizes user_id setActivity).
Local Abbreviation run' := (run updateData parse cache_sizes user_id setActivity).
Local Abbreviation visited' := (visited updateData parse cache_sizes user_id setActivity).

Implicit Types (w : World ParserData Host) (e : Event) (es : list Event).

Local Ltac by_cases e w :=
  unfold deliver; destruct e; destruct (task w) eqn:Htask; simpl in *;
  rewrite ?Htask; simpl; try done; eauto.

Lemma run_cons e es w : run' (e :: es) w = run' es (deliver' e w).
Proof. reflexivity. Qed.

Lemma run_app es1 es2 w : run' (es1 ++ es2) w = run' es2 (run' es1 w).
Proof. unfold run. apply foldl_app. Qed.

(** A property kept by every event is kept by every run. *)
Lemma run_preserves (P : World ParserData Host -> Prop) :
  (forall e w, P w -> P (deliver' e w)) ->
  forall es w, P w -> P (run' es w).
Proof.
  intros Hstep es. induction es as [|e es IH]; intros w Hw; [exact Hw|].
  rewrite run_cons. apply IH, Hstep, Hw.
Qed.

(** The same for runs whose events all satisfy [ok]. *)
Lemma run_preserves_filtered (ok : Event -> bool) (P : World ParserData Host -> Prop) :
  (forall e w, ok e = true -> P w -> P (deliver' e w)) ->
  forall es w, forallb ok es = true -> P w -> P (run' es w).
Proof.
  intros Hstep es. induction es as [|e es IH]; intros w Hok Hw; [exact Hw|].
  simpl in Hok. apply andb_true_iff in Hok as [He Hes].
  rewrite run_cons. apply IH; [exact Hes|]. by apply Hstep.
Qed.

(** No member of the class writes [false] into the flag after construction. *)
Lemma deliver_keeps_ready e w :
  isReady (updater w) = true -> isReady (updater (deliver' e w)) = true.
Proof. intros Hr. by_cases e w. Qed.

(** The flag is set by the [.then] reaction of [_init] and by nothing else. *)
Lemma deliver_sets_ready_only_in_then e w :
  isReady (updater w) = false ->
  isReady (updater (deliver' e w)) = true ->
  e = RunReaction /\ exists resolved, task w = ThenQueued resolved.
Proof. intros Hr. by_cases e w; intros; congruence. Qed.

(** While the request is in flight the reaction cannot run. *)
Lemma deliver_pending_stays_unready e w :
  is_fetch_fulfilled e = false ->
  (is_fetch_pending (task w) || has_failed (task w) = true
   /\ isReady (updater w) = false) ->
  (is_fetch_pending (task (deliver' e w)) || has_failed (task (deliver' e w)) = true
   /\ isReady (updater (deliver' e w)) = false).
Proof. intros He [Ht Hr]. by_cases e w. Qed.

(** After a failed request: never READY, never another request. *)
Lemma deliver_failed_is_final e w :
  (has_failed (task w) = true /\ isReady (updater w) = false) ->
  (has_failed (task (deliver' e w)) = true /\ isReady (updater (deliver' e w)) = false).
Proof. intros [Ht Hr]. by_cases e w. Qed.

(** Only the constructor starts a request. *)
Lemma deliver_never_starts_fetch e w :
  is_fetch_pending (task w) = false -> is_fetch_pending (task (deliver' e w)) = false.
Proof. intros Ht. by_cases e w. Qed.

Lemma rises_all_true flags : Forall (fun b => b = true) flags -> rises flags = 0%nat.
Proof.
  induction 1 as [|b flags -> _ IH]; [reflexivity|].
  simpl. exact IH.
Qed.

Lemma falls_all_true flags : Forall (fun b => b = true) flags -> falls flags = 0%nat.
Proof.
  induction 1 as [|b flags -> Hall IH]; [reflexivity|].
  simpl. destruct Hall as [|b' flags' -> _]; [reflexivity | exact IH].
Qed.

Lemma ready_flags_cons e es w :
  ready_flags (visited' (e :: es) w) =
  isReady (updater w) :: ready_flags (visited' es (deliver' e w)).
Proof. reflexivity. Qed.

Lemma ready_flags_head es w :
  exists rest, ready_flags (visited' es w) = isReady (updater w) :: rest.
Proof. destruct es; simpl; eauto. Qed.

Lemma visited_ready_stays es w :
  isReady (updater w) = true ->
  Forall (fun b => b = true) (ready_flags (visited' es w)).
Proof.
  revert w. induction es as [|e es IH]; intros w Hw.
  - by repeat constructor.
  - rewrite ready_flags_cons. constructor; [exact Hw|].
    apply IH. by apply deliver_keeps_ready.
Qed.

Lemma visited_rises_falls es w :
  (rises (ready_flags (visited' es w)) <= 1)%nat /\
  falls (ready_flags (visited' es w)) = 0%nat.
Proof.
  revert w. induction es as [|e es IH]; intros w.
  - simpl. destruct (isReady (updater w)); split; simpl; lia.
  - destruct (isReady (updater w)) eqn:Hw.
    + pose proof (visited_ready_stays (e :: es) w Hw) as Hall.
      rewrite (rises_all_true _ Hall), (falls_all_true _ Hall). lia.
    + rewrite ready_flags_cons, Hw.
      destruct (ready_flags_head es (deliver' e w)) as [rest Hrest].
      destruct (isReady (updater (deliver' e w))) eqn:Hnext.
      * pose proof (visited_ready_stays es (deliver' e w) Hnext) as Hall.
        pose proof (rises_all_true _ Hall) as Hrise.
        pose proof (falls_all_true _ Hall) as Hfall.
        rewrite Hrest in *. simpl. simpl in Hrise, Hfall. lia.
      * specialize (IH (deliver' e w)). rewrite Hrest in *. exact IH.
Qed.

Lemma statuses_by_flag (u : StatusUpdater) :
  statuses u = if isReady u then _statuses u else Some defaultStatuses.
Proof. unfold statuses. by destruct (isReady u). Qed.

Lemma constructor_not_ready isUrl arg u t :
  constructor isUrl arg = inr (u, t) -> isReady u = false.
Proof.
  unfold constructor, constructor_fields.
  destruct (truthy arg); [|by intros [= <- _]].
  destruct arg; try discriminate; [|by intros [= <- _]].
  destruct (negb (isUrl s)); [discriminate | by intros [= <- _]].
Qed.

Lemma boot_inv isUrl arg (pd : ParserData) (client : Host) h w0 :
  boot isUrl arg pd client h = inr w0 ->
  constructor isUrl arg = inr (updater w0, task w0).
Proof.
  unfold boot. destruct (constructor isUrl arg) as [|[u t]]; [discriminate|].
  by intros [= <-].
Qed.

Lemma boot_with_url isUrl s (pd : ParserData) (client : Host) h :
  s <> "" -> isUrl s = true ->
  exists w0 : World ParserData Host,
    boot isUrl (ArgString s) pd client h = inr w0 /\
    isReady (updater w0) = false /\ task w0 = FetchPending s.
Proof.
  intros Hs Hurl. apply truthy_string_true in Hs.
  unfold boot, constructor, constructor_fields, _init, _getStatuses. simpl.
  rewrite Hs, Hurl. simpl. rewrite Hs. eexists. by split.
Qed.

Lemma deliver_then w resolved :
  task w = ThenQueued resolved ->
  deliver' RunReaction w =
  {| updater := init_then (updater w); task := InitDone;
     parser_data := parser_data w; host := host w; objects := objects w |}.
Proof. unfold deliver. by intros ->. Qed.

(** An in-flight request stays in flight until it settles. *)
Lemma deliver_pending_kept e w :
  settles_fetch e = false ->
  (is_fetch_pending (task w) = true /\ isReady (updater w) = false) ->
  (is_fetch_pending (task (deliver' e w)) = true
   /\ isReady (updater (deliver' e w)) = false).
Proof. intros He [Ht Hr]. by_cases e w. Qed.

(** Once no request is in flight the stored pool is never written again. *)
Lemma deliver_keeps_pool pool e w :
  (_statuses (updater w) = pool /\ is_fetch_pending (task w) = false) ->
  (_statuses (updater (deliver' e w)) = pool
   /\ is_fetch_pending (task (deliver' e w)) = false).
Proof. intros [Hp Ht]. by_cases e w. Qed.

(** C6: the readiness flag is [false] when the constructor returns; over
    every sequence of events it goes from [false] to [true] at most once and
    never back; it is set only by the [.then] reaction of the initializer,
    hence not while the construction-time request is outstanding; and once
    that request was rejected the updater is never READY, [statuses] keeps
    returning the default pool, and no further request is ever started. *)
Theorem C6_readiness_rises_at_most_once
    (isUrl : string -> bool) (arg : StatusesArg) (pd : ParserData)
    (client : Host) (h : store) (w0 : World ParserData Host) :
  boot isUrl arg pd client h = inr w0 ->
  isReady (updater w0) = false /\
  (forall es,
     (rises (ready_flags (visited' es w0)) <= 1)%nat /\
     falls (ready_flags (visited' es w0)) = 0%nat) /\
  (forall es e,
     isReady (updater (run' es w0)) = false ->
     isReady (updater (run' (es ++ [e]) w0)) = true ->
     e = RunReaction /\ exists resolved, task (run' es w0) = ThenQueued resolved) /\
  (forall es,
     is_fetch_pending (task w0) = true ->
     forallb (fun e => negb (is_fetch_fulfilled e)) es = true ->
     isReady (updater (run' es w0)) = false) /\
  (forall es1 reason es2,
     is_fetch_pending (task w0) = true ->
     forallb (fun e => negb (settles_fetch e)) es1 = true ->
     let w := run' (es1 ++ FetchRejected reason :: es2) w0 in
     isReady (updater w) = false /\
     statuses (updater w) = Some defaultStatuses /\
     has_failed (task w) = true /\
     is_fetch_pending (task w) = false).
Proof.
  intros Hboot. apply boot_inv in Hboot.
  pose proof (constructor_not_ready _ _ _ _ Hboot) as Hfresh.
  split; [exact Hfresh|].
  split; [intros es; apply visited_rises_falls|].
  split.
  { intros es e Hbefore Hafter. rewrite run_app in Hafter.
    by apply deliver_sets_ready_only_in_then. }
  split.
  { intros es Hpending Hes.
    eapply (run_preserves_filtered (fun e => negb (is_fetch_fulfilled e))
              (fun w => is_fetch_pending (task w) || has_failed (task w) = true
                        /\ isReady (updater w) = false)); [|exact Hes|].
    - intros e w He. apply deliver_pending_stays_unready.
      by apply negb_true_iff.
    - by rewrite Hpending. }
  intros es1 reason es2 Hpending Hes1 w.
  assert (Hmid : is_fetch_pending (task (run' es1 w0)) = true
                 /\ isReady (updater (run' es1 w0)) = false).
  { eapply (run_preserves_filtered (fun e => negb (settles_fetch e))
              (fun w => is_fetch_pending (task w) = true
                        /\ isReady (updater w) = false)); [|exact Hes1|done].
    intros e w' He. apply deliver_pending_kept. by apply negb_true_iff. }
  assert (Hfinal : has_failed (task w) = true /\ isReady (updater w) = false).
  { subst w. rewrite run_app, run_cons.
    apply (run_preserves (fun w => has_failed (task w) = true
                                   /\ isReady (updater w) = false));
      [apply deliver_failed_is_final|].
    destruct Hmid as [Hp Hr]. unfold deliver.
    destruct (task (run' es1 w0)); try discriminate. by simpl. }
  destruct Hfinal as [Hfailed Hunready].
  repeat split; try done.
  - by rewrite statuses_by_flag, Hunready.
  - by destruct (task w).
Qed.

(** X18: [statuses] returns the built-in default pool whenever the updater
    is not READY, whatever was passed to the constructor, and the stored
    field once it is READY: for an updater constructed with an inline array
    that array, at every later time; for an updater constructed with a URL
    the array the request was fulfilled with. *)
Theorem X18_statuses_of_array_and_url_instances
    (isUrl : string -> bool) (pd : ParserData) (client : Host) (h : store) :
  (forall u, isReady u = false -> statuses u = Some defaultStatuses) /\
  (forall u, isReady u = true -> statuses u = _statuses u) /\
  (forall templates, exists w0,
     boot isUrl (ArgArray templates) pd client h = inr w0 /\
     statuses (updater w0) = Some defaultStatuses /\
     statuses (updater (run' [RunReaction] w0)) = Some templates /\
     forall es,
       statuses (updater (run' es w0)) =
       if isReady (updater (run' es w0)) then Some templates
       else Some defaultStatuses) /\
  (forall s, s <> "" -> isUrl s = true -> exists w0,
     boot isUrl (ArgString s) pd client h = inr w0 /\
     statuses (updater w0) = Some defaultStatuses /\
     forall es1 data es2,
       forallb (fun e => negb (settles_fetch e)) es1 = true ->
       statuses (updater (run' (es1 ++ [FetchFulfilled data; RunReaction]) w0))
         = Some data /\
       statuses (updater (run' (es1 ++ FetchFulfilled data :: es2) w0)) =
       if isReady (updater (run' (es1 ++ FetchFulfilled data :: es2) w0))
       then Some data else Some defaultStatuses).
Proof.
  split; [by intros u Hu; rewrite statuses_by_flag, Hu|].
  split; [by intros u Hu; rewrite statuses_by_flag, Hu|].
  split.
  - intros templates. eexists. split; [reflexivity|].
    split; [reflexivity|]. split; [reflexivity|].
    intros es. rewrite statuses_by_flag.
    case_match; [|reflexivity].
    eapply (run_preserves (fun w => _statuses (updater w) = Some templates
                                    /\ is_fetch_pending (task w) = false)).
    + apply deliver_keeps_pool.
    + done.
  - intros s Hs Hurl.
    destruct (boot_with_url isUrl s pd client h Hs Hurl) as [w0 [Hboot [Hu Ht]]].
    exists w0. split; [apply Hboot|].
    split; [by rewrite statuses_by_flag, Hu|].
    intros es1 data es2 Hes1.
    assert (Hmid : is_fetch_pending (task (run' es1 w0)) = true
                   /\ isReady (updater (run' es1 w0)) = false).
    { eapply (run_preserves_filtered (fun e => negb (settles_fetch e))
                (fun w => is_fetch_pending (task w) = true
                          /\ isReady (updater w) = false)); [|exact Hes1|].
      - intros e w' He. apply deliver_pending_kept. by apply negb_true_iff.
      - by rewrite Ht, Hu. }
    destruct Hmid as [Hp Hr].
    assert (Hstored : _statuses (updater (deliver' (FetchFulfilled data) (run' es1 w0)))
                        = Some data
                      /\ task (deliver' (FetchFulfilled data) (run' es1 w0))
                        = ThenQueued data).
    { unfold deliver. destruct (task (run' es1 w0)); try discriminate. done. }
    destruct Hstored as [Hpool Htask].
    split.
    + rewrite run_app.
      change (run' [FetchFulfilled data; RunReaction] (run' es1 w0))
        with (deliver' RunReaction (deliver' (FetchFulfilled data) (run' es1 w0))).
      rewrite (deliver_then _ _ Htask). simpl.
      unfold statuses. simpl. exact Hpool.
    + rewrite run_app, run_cons, statuses_by_flag.
      case_match; [|reflexivity].
      eapply (run_preserves (fun w => _statuses (updater w) = Some data
                                      /\ is_fetch_pending (task w) = false)).
      * apply deliver_keeps_pool.
      * by rewrite Hpool, Htask.
Qed.

End LifetimeFacts.

(** A run against the sample collaborators: construction from a URL, a
    read, a rejected request, the queued reaction and one status update. *)
Lemma C6_readiness_rises_at_most_once_witness :
  let w0 : World Sample.VariableData Sample.Host :=
    {| updater := {| statusUrl := Some "https://example.com/statuses.json";
                     _statuses := None; isReady := false |};
       task := FetchPending "https://example.com/statuses.json";
       parser_data := ∅; host := Sample.client; objects := ∅ |} in
  let w := run Sample.updateData Sample.parse Sample.sizes Sample.user Sample.setActivity
             ([ReadStatuses] ++ FetchRejected None
                :: [RunReaction; CallUpdateStatus Sample.half None None]) w0 in
  isReady (updater w0) = false /\
  (isReady (updater w) = false /\
   statuses (updater w) = Some defaultStatuses /\
   has_failed (task w) = true /\
   is_fetch_pending (task w) = false).
Proof.
  intros w0 w.
  destruct (C6_readiness_rises_at_most_once
              Sample.updateData Sample.parse Sample.sizes Sample.user Sample.setActivity
              Sample.isUrl (ArgString "https://example.com/statuses.json")
              ∅ Sample.client ∅ w0 eq_refl)
    as (Hfresh & _ & _ & _ & Hfailed).
  split; [exact Hfresh|].
  apply (Hfailed [ReadStatuses] None
           [RunReaction; CallUpdateStatus Sample.half None None]);
    reflexivity.
Defined.

Lemma X18_statuses_of_array_and_url_instances_witness :
  let fetched := [Sample.template (Some "WATCHING") "{guilds} servers"] in
  exists w0 : World Sample.VariableData Sample.Host,
    boot Sample.isUrl (ArgString "https://example.com/statuses.json")
         ∅ Sample.client ∅ = inr w0 /\
    statuses (updater w0) = Some defaultStatuses /\
    statuses (updater (run Sample.updateData Sample.parse Sample.sizes Sample.user
                           Sample.setActivity
                           ([ReadStatuses] ++ [FetchFulfilled fetched; RunReaction])
                           w0))
      = Some fetched.
Proof.
  intros fetched.
  destruct (X18_statuses_of_array_and_url_instances
              Sample.updateData Sample.parse Sample.sizes Sample.user Sample.setActivity
              Sample.isUrl ∅ Sample.client ∅)
    as (_ & _ & _ & Hurl).
  destruct (Hurl "https://example.com/statuses.json") as (w0 & Hboot & Hdefault & Hlater);
    [discriminate | reflexivity |].
  exists w0. split; [exact Hboot|]. split; [exact Hdefault|].
  destruct (Hlater [ReadStatuses] fetched []) as [Hready _]; [reflexivity|].
  exact Hready.
Defined.

(** ** [updateStatus] *)

Section UpdateStatusFacts.

Context {ParserData : Type}.
Context (updateData : ParserData -> Counters -> ParserData).
Context (parse : ParserData -> string -> string).
Context {Host Presence HostError : Type}.
Context (cache_sizes : Host -> Counters).
Context (user_id : Host -> option string).
Context (setActivity : loc -> store -> Host -> Host * Promise Presence HostError).

Local Abbreviation updateStatus' :=
  (updateStatus updateData parse cache_sizes user_id setActivity).

Implicit Types (u : StatusUpdater) (client : Host) (pd : ParserData)
  (h : store) (r : unit_double) (l : loc).

(** With an explicit activity: no selection; the shard id is written into
    the caller's object, and that object is what the host receives, if the
    client has a user. *)
Lemma updateStatus_explicit u client pd h r l shardId :
  updateStatus' u client pd h r (Some l) shardId =
  match user_id client with
  | None =>
      {| parser_after := updateData pd (cache_sizes client);
         store_after := attach_shard shardId l h;
         host_after := client;
         outcome := inl TypeError |}
  | Some _ =>
      {| parser_after := updateData pd (cache_sizes client);
         store_after := attach_shard shardId l h;
         host_after := (setActivity l (attach_shard shardId l h) client).1;
         outcome := inr (l, (setActivity l (attach_shard shardId l h) client).2) |}
  end.
Proof.
  unfold updateStatus. cbn -[attach_shard].
  destruct (user_id client); [|reflexivity].
  by destruct (setActivity l (attach_shard shardId l h) client).
Qed.

(** Without one: the selection is stored as a new object. *)
Lemma updateStatus_chosen u client pd h r shardId details :
  _chooseActivity parse u (updateData pd (cache_sizes client)) r = inr details ->
  updateStatus' u client pd h r None shardId =
  match user_id client with
  | None =>
      {| parser_after := updateData pd (cache_sizes client);
         store_after := attach_shard shardId (fresh (dom h))
                          (<[fresh (dom h) := details]> h);
         host_after := client;
         outcome := inl TypeError |}
  | Some _ =>
      {| parser_after := updateData pd (cache_sizes client);
         store_after := attach_shard shardId (fresh (dom h))
                          (<[fresh (dom h) := details]> h);
         host_after :=
           (setActivity (fresh (dom h))
              (attach_shard shardId (fresh (dom h)) (<[fresh (dom h) := details]> h))
              client).1;
         outcome :=
           inr (fresh (dom h),
                (setActivity (fresh (dom h))
                   (attach_shard shardId (fresh (dom h))
                      (<[fresh (dom h) := details]> h))
                   client).2) |}
  end.
Proof.
  intros Hchoose. unfold updateStatus, _updateParserData. rewrite Hchoose.
  cbn -[attach_shard].
  destruct (user_id client); [|reflexivity].
  by destruct (setActivity _ _ client).
Qed.


(** When the selection throws, the host is not called. *)
Lemma updateStatus_selection_throws u client pd h r shardId e :
  _chooseActivity parse u (updateData pd (cache_sizes client)) r = inl e ->
  updateStatus' u client pd h r None shardId =
  {| parser_after := updateData pd (cache_sizes client);
     store_after := h; host_after := client; outcome := inl e |}.
Proof.
  intros Hchoose. unfold updateStatus, _updateParserData. by rewrite Hchoose.
Qed.

Lemma fresh_loc_unused h : h !! fresh (dom h) = None.
Proof. apply not_elem_of_dom, is_fresh. Qed.

Lemma attach_shard_omitted l h : attach_shard None l h = h.
Proof. reflexivity. Qed.

Lemma attach_shard_zero l h : attach_shard (Some 0) l h = h.
Proof. reflexivity. Qed.

Lemma attach_shard_nonzero n l h a :
  n <> 0 -> h !! l = Some a ->
  attach_shard (Some n) l h = <[l := with_shardID n a]> h.
Proof.
  intros Hn Hl. unfold attach_shard.
  apply truthy_number_true in Hn as ->.
  apply map_eq. intros l'. rewrite lookup_alter, lookup_insert.
  case_decide as Heq; [|reflexivity]. subst l'. by rewrite Hl.
Qed.

Lemma attach_shard_elsewhere shardId l l' h :
  l <> l' -> attach_shard shardId l h !! l' = h !! l'.
Proof.
  intros Hne. unfold attach_shard.
  destruct shardId as [n|]; [|reflexivity].
  destruct (truthy_number n); [|reflexivity].
  rewrite lookup_alter. by case_decide.
Qed.

(** C10: called with an explicit activity and a non-zero shard id,
    [updateStatus] writes the shard id into the caller's own object: after
    the call the object at the caller's reference has [shardID] equal to the
    shard id and its other fields as before, no other object has changed and
    none was created; whenever the host is reached it receives that very
    reference, and on a client with a user it is reached (on a client
    without one the write has happened when the [TypeError] is thrown). *)
Theorem C10_explicit_activity_mutated_in_place u client pd h r l a n :
  h !! l = Some a ->
  n <> 0 ->
  let res := updateStatus' u client pd h r (Some l) (Some n) in
  (exists written,
     store_after res !! l = Some written /\
     shardID written = Some n /\
     type written = type a /\ name written = name a /\ url written = url a) /\
  store_after res = <[l := with_shardID n a]> h /\
  dom (store_after res) = dom h /\
  (forall l', l' <> l -> store_after res !! l' = h !! l') /\
  (forall l' p, outcome res = inr (l', p) -> l' = l) /\
  (forall id, user_id client = Some id ->
     outcome res = inr (l, (setActivity l (store_after res) client).2) /\
     host_after res = (setActivity l (store_after res) client).1) /\
  (user_id client = None ->
     outcome res = inl TypeError /\ host_after res = client).
Proof.
  intros Hl Hn res. subst res. rewrite updateStatus_explicit.
  rewrite (attach_shard_nonzero n l h a Hn Hl).
  assert (Hwritten : exists written,
            (<[l := with_shardID n a]> h) !! l = Some written /\
            shardID written = Some n /\
            type written = type a /\ name written = name a /\ url written = url a).
  { exists (with_shardID n a). by rewrite lookup_insert_eq. }
  assert (Hdom : dom (<[l := with_shardID n a]> h) = dom h).
  { apply dom_insert_lookup_L. by exists a. }
  assert (Hothers : forall l', l' <> l ->
            (<[l := with_shardID n a]> h) !! l' = h !! l').
  { intros l' Hne. by rewrite lookup_insert_ne. }
  destruct (user_id client) as [id|]; cbn [store_after host_after outcome].
  - split; [exact Hwritten|]. split; [reflexivity|]. split; [exact Hdom|].
    split; [exact Hothers|]. split; [by intros ? ? [= <- _]|].
    split; [by intros ? _ | discriminate].
  - split; [exact Hwritten|]. split; [reflexivity|]. split; [exact Hdom|].
    split; [exact Hothers|]. split; [discriminate|].
    split; [discriminate | done].
Qed.

(** C5 (amended): whenever [updateStatus] reaches the host, the object it
    hands over is the resolved activity (the caller's explicit one, or the
    selection) with [shardID] overwritten by the shard id when a non-zero
    shard id was passed, and exactly the resolved activity when the shard id
    was omitted: the field then stays as the resolved activity carries it,
    unset if and only if it was unset there. *)
Theorem C5_nonzero_shard_attached_omitted_shard_kept
    u client pd h r activity shardId l p :
  (forall l0, activity = Some l0 -> is_Some (h !! l0)) ->
  outcome (updateStatus' u client pd h r activity shardId) = inr (l, p) ->
  exists resolved applied,
    match activity with
    | Some l0 => l = l0 /\ h !! l0 = Some resolved
    | None =>
        _chooseActivity parse u (updateData pd (cache_sizes client)) r
          = inr resolved
    end /\
    store_after (updateStatus' u client pd h r activity shardId) !! l
      = Some applied /\
    (forall n, shardId = Some n -> n <> 0 ->
       applied = with_shardID n resolved /\ shardID applied = Some n) /\
    (shardId = None ->
       applied = resolved /\ shardID applied = shardID resolved).
Proof.
  intros Hlive Hout.
  destruct activity as [l0|].
  - destruct (Hlive l0 eq_refl) as [a Ha].
    rewrite updateStatus_explicit in Hout |- *.
    destruct (user_id client); [|discriminate Hout].
    cbn [store_after host_after outcome parser_after] in *.
    injection Hout as <- _.
    exists a. destruct shardId as [n|].
    + destruct (decide (n = 0)) as [->|Hn].
      * exists a. rewrite attach_shard_zero.
        split; [done|]. split; [done|]. split; [|done].
        by intros ? [= <-] Hn.
      * exists (with_shardID n a).
        rewrite (attach_shard_nonzero n l0 h a Hn Ha), lookup_insert_eq.
        split; [done|]. split; [done|]. split; [|done].
        by intros ? [= <-] _.
    + exists a. rewrite attach_shard_omitted. repeat split; try done.
  - destruct (_chooseActivity parse u (updateData pd (cache_sizes client)) r)
      as [e|details] eqn:Hchoose.
    { by rewrite (updateStatus_selection_throws _ _ _ _ _ _ _ Hchoose) in Hout. }
    rewrite (updateStatus_chosen _ _ _ _ _ _ _ Hchoose) in Hout |- *.
    destruct (user_id client); [|discriminate Hout].
    cbn [store_after host_after outcome parser_after] in *. injection Hout as <- _.
    exists details. destruct shardId as [n|].
    + destruct (decide (n = 0)) as [->|Hn].
      * exists details. rewrite attach_shard_zero, lookup_insert_eq.
        split; [done|]. split; [done|]. split; [|done].
        by intros ? [= <-] Hn.
      * exists (with_shardID n details).
        rewrite (attach_shard_nonzero n _ _ details Hn) by apply lookup_insert_eq.
        rewrite lookup_insert_eq.
        split; [done|]. split; [done|]. split; [|done].
        by intros ? [= <-] _.
    + exists details. rewrite attach_shard_omitted, lookup_insert_eq.
      repeat split; try done.
Qed.


End UpdateStatusFacts.

(** Runs against the sample collaborators. *)

(** The end-to-end example of the specification: 42 users, one template. *)
Example updateStatus_renders_user_count :
  outcome (sample_updateStatus
             [Sample.template (Some "PLAYING") "with {users} users"] ∅ None None)
  = inr (1%positive,
         Fulfilled {| type := Some "PLAYING"; name := "with 42 users";
                      url := None; shardID := None |}).
Proof. vm_compute. reflexivity. Qed.

Example updateStatus_empty_name_falls_back :
  outcome (sample_updateStatus [Sample.template None ""] ∅ None None)
  = inr (1%positive,
         Fulfilled {| type := Some "PLAYING"; name := "a game";
                      url := None; shardID := None |}).
Proof. vm_compute. reflexivity. Qed.

(** Shard 0 is falsy under [if (shardId)]: it is not attached. *)
Example updateStatus_shard_zero_not_attached :
  let a := Sample.template (Some "PLAYING") "chess" in
  store_after (sample_updateStatus defaultStatuses {[ 1%positive := a ]}
                 (Some 1%positive) (Some 0))
    !! 1%positive = Some a.
Proof. vm_compute. reflexivity. Qed.

(** C5, as stated, fails: with the shard id omitted the applied activity
    still carries a [shardID] when the resolved activity has one, be it the
    caller's explicit activity or the selected template, whose fields the
    selection copies. *)
Lemma C5_omitted_shard_does_not_unset_field :
  let a := {| type := Some "PLAYING"; name := "chess"; url := None;
              shardID := Some 5 |} in
  let explicit :=
    sample_updateStatus defaultStatuses {[ 1%positive := a ]} (Some 1%positive) None in
  let selected := sample_updateStatus [a] ∅ None None in
  (outcome explicit = inr (1%positive, Fulfilled a) /\
   shardID <$> store_after explicit !! 1%positive = Some (Some 5)) /\
  (outcome selected = inr (1%positive, Fulfilled a) /\
   shardID <$> store_after selected !! 1%positive = Some (Some 5)).
Proof. vm_compute. repeat split. Qed.

Lemma C5_nonzero_shard_attached_omitted_shard_kept_witness :
  let a := Sample.template (Some "PLAYING") "chess" in
  exists resolved applied,
    (1%positive = 1%positive /\
     ({[ 1%positive := a ]} : store) !! 1%positive = Some resolved) /\
    store_after (sample_updateStatus defaultStatuses {[ 1%positive := a ]}
                   (Some 1%positive) (Some 3)) !! 1%positive = Some applied /\
    (forall n, Some 3 = Some n -> n <> 0 ->
       applied = with_shardID n resolved /\ shardID applied = Some n) /\
    (Some 3 = None ->
       applied = resolved /\ shardID applied = shardID resolved).
Proof.
  intros a.
  apply (C5_nonzero_shard_attached_omitted_shard_kept
           Sample.updateData Sample.parse Sample.sizes Sample.user Sample.setActivity
           (sample_updater defaultStatuses) Sample.client ∅ {[ 1%positive := a ]}
           Sample.half (Some 1%positive) (Some 3) 1%positive
           (Fulfilled (with_shardID 3 a))).
  - intros l0 [= <-]. exists a. reflexivity.
  - vm_compute. reflexivity.
Defined.

Lemma C10_explicit_activity_mutated_in_place_witness :
  let a := Sample.template (Some "PLAYING") "chess" in
  let res := sample_updateStatus defaultStatuses {[ 1%positive := a ]}
               (Some 1%positive) (Some 3) in
  (exists written,
     store_after res !! 1%positive = Some written /\
     shardID written = Some 3 /\
     type written = type a /\ name written = name a /\ url written = url a) /\
  outcome res =
    inr (1%positive, (Sample.setActivity 1%positive (store_after res) Sample.client).2).
Proof.
  intros a.
  destruct (C10_explicit_activity_mutated_in_place
              Sample.updateData Sample.parse Sample.sizes Sample.user Sample.setActivity
              (sample_updater defaultStatuses) Sample.client ∅ {[ 1%positive := a ]}
              Sample.half 1%positive a 3)
    as (Hwritten & _ & _ & _ & _ & Hforwarded & _);
    [reflexivity | discriminate |].
  split; [exact Hwritten|].
  destruct (Hforwarded "237993001828352001" eq_refl) as [Hout _].
  exact Hout.
Defined.


(** Before login the write happens and the call throws. *)
Example updateStatus_without_user_writes_then_throws :
  let a := Sample.template (Some "PLAYING") "chess" in
  let res := updateStatus Sample.updateData Sample.parse Sample.sizes Sample.user
               Sample.setActivity (sample_updater defaultStatuses)
               Sample.offline_client ∅ {[ 1%positive := a ]} Sample.half
               (Some 1%positive) (Some 3) in
  outcome res = inl TypeError /\
  store_after res !! 1%positive = Some (with_shardID 3 a) /\
  host_after res = Sample.offline_client.
Proof. vm_compute. repeat split. Qed.

(** ** The webhook logger *)

Section WebhookLoggerFacts.

Context (SILLY : Z) {Color Time Data : Type}.
Context (colors2 : Z -> Color) (_prepareText : list Data -> string).
Context (_processTag : string).

Local Abbreviation write' := (_write SILLY colors2 _prepareText _processTag).

Implicit Types (now : Time) (level : Z) (tag : string) (data : list Data).

(** Above the configured level nothing is sent to the webhook. *)
Lemma write_gated now level tag data :
  SILLY < level -> to_webhook (write' now level tag data) = None.
Proof.
  intros Hlevel. unfold _write, _webhookLevel.
  by apply Z.ltb_lt in Hlevel as ->.
Qed.

(** What is sent otherwise. *)
Lemma write_sent now level tag data :
  level <= SILLY ->
  exists embed opts,
    to_webhook (write' now level tag data) = Some opts /\
    embeds opts = [embed] /\
    description embed =
      Some (if (String.length (_prepareText data) <=? 2048)%nat
            then _prepareText data
            else "Data is too long, falling back to file.") /\
    files opts =
      (if (String.length (_prepareText data) <=? 2048)%nat then None
       else Some [ {| attachment := _prepareText data;
                      attachment_name := "file.txt" |} ]).
Proof.
  intros Hlevel. unfold _write, _webhookLevel.
  apply Z.ltb_ge in Hlevel as ->.
  destruct (String.length (_prepareText data) <=? 2048)%nat;
    destruct (truthy_string tag); simpl;
    (eexists; eexists; split; [reflexivity|]; by repeat split).
Qed.

(** C8: every entry that passes the level gate is sent with one embed; when
    the prepared text has at most 2048 characters it is the embed's
    description and no file is attached; when it is longer the description is
    the fallback notice and the whole text is attached as file.txt; and two
    entries whose prepared texts have the same length are delivered the same
    way, whatever their level, tag and content. *)
Theorem C8_write_inline_or_file_by_length now level tag data :
  level <= SILLY ->
  exists embed opts,
    to_webhook (write' now level tag data) = Some opts /\
    embeds opts = [embed] /\
    ((String.length (_prepareText data) <= 2048)%nat ->
       description embed = Some (_prepareText data) /\
       files opts = None /\
       delivery opts = Inline) /\
    ((2048 < String.length (_prepareText data))%nat ->
       description embed = Some "Data is too long, falling back to file." /\
       files opts = Some [ {| attachment := _prepareText data;
                              attachment_name := "file.txt" |} ] /\
       delivery opts = AsFile) /\
    (forall (now' : Time) level' tag' data' opts',
       to_webhook (write' now' level' tag' data') = Some opts' ->
       String.length (_prepareText data') = String.length (_prepareText data) ->
       delivery opts' = delivery opts).
Proof.
  intros Hlevel.
  destruct (write_sent now level tag data Hlevel)
    as (embed & opts & Hsent & Hembeds & Hdescr & Hfiles).
  exists embed, opts.
  split; [exact Hsent|]. split; [exact Hembeds|].
  split.
  { intros Hshort. apply Nat.leb_le in Hshort.
    rewrite Hshort in Hdescr, Hfiles. unfold delivery. by rewrite Hfiles. }
  split.
  { intros Hlong. apply Nat.leb_gt in Hlong.
    rewrite Hlong in Hdescr, Hfiles. unfold delivery. by rewrite Hfiles. }
  intros now' level' tag' data' opts' Hsent' Hsame.
  destruct (Z.lt_ge_cases SILLY level') as [Hgated|Hpass].
  { by rewrite (write_gated _ _ _ _ Hgated) in Hsent'. }
  destruct (write_sent now' level' tag' data' Hpass)
    as (embed' & opts'' & Hsent'' & _ & _ & Hfiles').
  rewrite Hsent' in Hsent''. injection Hsent'' as <-.
  unfold delivery. rewrite Hfiles, Hfiles', Hsame.
  by destruct (String.length (_prepareText data) <=? 2048)%nat.
Qed.

End WebhookLoggerFacts.

Example write_short_entry_inline :
  to_webhook (Sample.write 3 "CLIENT" ["shard"; "ready"]) =
  Some {| avatarURL := "https://cdn.discordapp.com/avatars/237993001828352001/a_04c3221e95f15ebcec7fbb96c6ec1146.gif?size=512";
          embeds := [ {| timestamp := Some 1700000000; color := Some 196608;
                         footer := Some "pid 1";
                         description := Some "shard ready";
                         title := Some "CLIENT" |} ];
          username := "Emoji Stealer Status";
          files := None |}.
Proof. reflexivity. Qed.

Example write_2048_characters_inline :
  delivery <$> to_webhook (Sample.write 1 "" [Sample.filler 2048]) = Some Inline.
Proof. vm_compute. reflexivity. Qed.

Example write_2049_characters_as_file :
  files <$> to_webhook (Sample.write 1 "" [Sample.filler 2049]) =
  Some (Some [ {| attachment := Sample.filler 2049; attachment_name := "file.txt" |} ]).
Proof. vm_compute. reflexivity. Qed.

Lemma C8_write_inline_or_file_by_length_witness :
  exists embed opts,
    to_webhook (Sample.write 3 "CLIENT" ["shard"; "ready"]) = Some opts /\
    embeds opts = [embed] /\
    description embed = Some "shard ready" /\
    files opts = None /\
    delivery opts = Inline.
Proof.
  destruct (C8_write_inline_or_file_by_length
              Sample.SILLY Sample.colors2 Sample._prepareText "pid 1"
              1700000000 3 "CLIENT" ["shard"; "ready"])
    as (embed & opts & Hsent & Hembeds & Hshort & _).
  - vm_compute. discriminate.
  - exists embed, opts. split; [exact Hsent|]. split; [exact Hembeds|].
    apply Hshort. vm_compute. repeat constructor.
Defined.

(** * Further properties of the code *)

(** ** Every template can be selected *)

(** Rounding to 53 bits moves a product below [2^53 * len] by less than
    [len]. *)
Lemma round53_near n len :
  0 <= n < 2 ^ 53 * len -> n - len < round53 n < n + len.
Proof.
  intros [Hn Hlt]. unfold round53.
  destruct (n <? 2 ^ 53) eqn:Hsmall; [lia|].
  apply Z.ltb_ge in Hsmall.
  assert (Hlog : 53 <= Z.log2 n) by (apply Z.log2_le_pow2; lia).
  set (s := Z.log2 n - 52).
  assert (Hs : 1 <= s) by (subst s; lia).
  assert (Hpow : 0 < 2 ^ s) by (apply Z.pow_pos_nonneg; lia).
  assert (Hhalf : 2 ^ s = 2 * 2 ^ (s - 1)).
  { replace s with (Z.succ (s - 1)) at 1 by lia. apply Z.pow_succ_r. lia. }
  assert (Hulp : 2 ^ (s - 1) < len).
  { destruct (Z.log2_spec n) as [Hlo _]; [lia|].
    assert (Hsplit : 2 ^ Z.log2 n = 2 ^ 53 * 2 ^ (s - 1)).
    { rewrite <- Z.pow_add_r by lia. f_equal. subst s. lia. }
    assert (0 < 2 ^ 53) by (apply Z.pow_pos_nonneg; lia).
    nia. }
  rewrite Z.shiftl_mul_pow2, Z.shiftr_div_pow2 by lia.
  pose proof (Z.div_mod n (2 ^ s) ltac:(lia)) as Hdm.
  pose proof (Z.mod_pos_bound n (2 ^ s) Hpow) as Hmod.
  set (q := n / 2 ^ s) in *. set (rest := n mod 2 ^ s) in *.
  destruct (rest <? 2 ^ (s - 1)) eqn:H1.
  { apply Z.ltb_lt in H1. nia. }
  apply Z.ltb_ge in H1.
  assert (Hup : n - len < (q + 1) * 2 ^ s < n + len) by nia.
  destruct (2 ^ (s - 1) <? rest) eqn:H2; [exact Hup|].
  apply Z.ltb_ge in H2.
  destruct (Z.even q); [nia | exact Hup].
Qed.

(** A random value that reaches index [i] of [len]: two units of [2^-53]
    above [i / len] rounded down to a multiple of [2^-53]. *)
Lemma index_is_selectable len i :
  0 < len <= 2 ^ 31 -> 0 <= i < len ->
  let r := UnitDouble (i * 2 ^ 53 / len + 2) 53 in
  is_unit_double r = true /\ double_tilde_product r len = i.
Proof.
  intros Hlen Hi r.
  assert (H53 : 2 ^ 53 = 9007199254740992) by reflexivity.
  assert (H31 : 2 ^ 31 = 2147483648) by reflexivity.
  pose proof (Z.div_mod (i * 2 ^ 53) len ltac:(lia)) as Hdm.
  pose proof (Z.mod_pos_bound (i * 2 ^ 53) len ltac:(lia)) as Hmod.
  set (x := i * 2 ^ 53 / len) in *. set (m := (i * 2 ^ 53) mod len) in *.
  assert (Hx0 : 0 <= x) by (subst x; apply Z.div_pos; nia).
  assert (Hx : x + 2 < 2 ^ 53) by nia.
  split.
  { unfold is_unit_double, r. simpl.
    rewrite !andb_true_iff. repeat split.
    - apply Z.leb_le. lia.
    - apply Z.ltb_lt. exact Hx. }
  pose proof (round53_near ((x + 2) * len) len ltac:(nia)) as Hnear.
  unfold double_tilde_product, truncate, times_length, r. simpl significand.
  simpl scale. rewrite Z.shiftr_div_pow2 by lia.
  assert (Hq : round53 ((x + 2) * len) / 2 ^ 53 = i).
  { symmetry. apply (Z.div_unique _ _ i (round53 ((x + 2) * len) - i * 2 ^ 53)); nia. }
  rewrite Hq. apply ToInt32_small. lia.
Qed.

Section SelectionReach.

Context {ParserData : Type} (parse : ParserData -> string -> string).

(** X1: no template is out of reach of the random selection: for every
    position of a pool of at most 2^31 templates there is a value of
    [Math.random()] for which [_chooseActivity] returns the rendering of the
    template at that position. *)
Theorem X1_every_template_is_selectable
    (u : StatusUpdater) (pd : ParserData) (pool : list ActivityOptions)
    (k : nat) (info : ActivityOptions) :
  statuses u = Some pool ->
  Z.of_nat (length pool) <= 2 ^ 31 ->
  pool !! k = Some info ->
  exists r,
    is_unit_double r = true /\
    double_tilde_product r (Z.of_nat (length pool)) = Z.of_nat k /\
    _chooseActivity parse u pd r =
      inr {| type := Some (string_or (type info) "PLAYING");
             name := string_or (Some (parse pd (name info))) "a game";
             url := url info; shardID := shardID info |}.
Proof.
  intros Hpool Hlen Hk.
  pose proof (lookup_lt_Some _ _ _ Hk) as Hlt.
  destruct (index_is_selectable (Z.of_nat (length pool)) (Z.of_nat k))
    as [Hr Hidx]; [lia | lia |].
  eexists. split; [exact Hr|]. split; [exact Hidx|].
  apply chooseActivity_at with pool; [exact Hpool|].
  rewrite Hidx. unfold array_get.
  destruct (0 <=? Z.of_nat k) eqn:E; [|apply Z.leb_gt in E; lia].
  by rewrite Nat2Z.id.
Qed.

(** X2: while the updater is not READY, whatever it was constructed with,
    [_chooseActivity] never throws: for every value of [Math.random()] it
    returns an activity with the kind of one of the seven built-in
    templates, that template's name rendered (or "a game"), and no url. *)
Theorem X2_selection_before_readiness_never_throws
    (u : StatusUpdater) (pd : ParserData) (r : unit_double) :
  isReady u = false ->
  is_unit_double r = true ->
  exists info details,
    info ∈ defaultStatuses /\
    _chooseActivity parse u pd r = inr details /\
    type details = type info /\
    name details = string_or (Some (parse pd (name info))) "a game" /\
    url details = None.
Proof.
  intros Hu Hr.
  assert (Hpool : statuses u = Some defaultStatuses)
    by (unfold statuses; by rewrite Hu).
  destruct (double_tilde_product_range r (Z.of_nat (length defaultStatuses)) Hr)
    as [_ Hrange]; [by vm_compute|].
  destruct (array_get_in_range defaultStatuses _ Hrange) as [info Hget].
  pose proof (array_get_Some _ _ _ Hget) as [_ Hlookup].
  apply list_elem_of_lookup_2 in Hlookup.
  eexists info, _. split; [exact Hlookup|].
  split; [exact (chooseActivity_at parse u pd r defaultStatuses info Hpool Hget)|].
  assert (Hshape : Forall (fun t => Some (string_or (type t) "PLAYING") = type t
                                    /\ url t = None)
                     defaultStatuses)
    by (repeat constructor).
  rewrite Forall_forall in Hshape.
  destruct (Hshape info Hlookup) as (Hkind & Hurl). simpl. by rewrite Hkind, Hurl.
Qed.

End SelectionReach.

Lemma X1_every_template_is_selectable_witness :
  exists r,
    is_unit_double r = true /\
    double_tilde_product r (Z.of_nat (length defaultStatuses)) = Z.of_nat 6 /\
    _chooseActivity Sample.parse (sample_updater defaultStatuses)
      (Sample.updateData ∅ Sample.counters) r =
      inr {| type := Some "WATCHING"; name := "3 servers";
             url := None; shardID := None |}.
Proof.
  destruct (X1_every_template_is_selectable Sample.parse
              (sample_updater defaultStatuses) (Sample.updateData ∅ Sample.counters)
              defaultStatuses 6
              {| type := Some "WATCHING"; name := "{guilds} servers";
                 url := None; shardID := None |})
    as (r & Hr & Hidx & Hsel).
  - reflexivity.
  - vm_compute. discriminate.
  - reflexivity.
  - exists r. split; [exact Hr|]. split; [exact Hidx|].
    rewrite Hsel. vm_compute. reflexivity.
Defined.

Lemma X2_selection_before_readiness_never_throws_witness :
  exists info details,
    info ∈ defaultStatuses /\
    _chooseActivity Sample.parse
      {| statusUrl := Some "https://example.com/statuses.json";
         _statuses := None; isReady := false |}
      (Sample.updateData ∅ Sample.counters) Sample.almost_one = inr details /\
    type details = type info /\
    name details = string_or
                     (Some (Sample.parse (Sample.updateData ∅ Sample.counters)
                              (name info))) "a game" /\
    url details = None.
Proof.
  apply (X2_selection_before_readiness_never_throws Sample.parse
           {| statusUrl := Some "https://example.com/statuses.json";
              _statuses := None; isReady := false |}
           (Sample.updateData ∅ Sample.counters) Sample.almost_one);
    reflexivity.
Defined.

(** ** What a status update touches *)

Section UpdateStatusFrame.

Context {ParserData : Type}.
Context (updateData : ParserData -> Counters -> ParserData).
Context (parse : ParserData -> string -> string).
Context {Host Presence HostError : Type}.
Context (cache_sizes : Host -> Counters).
Context (user_id : Host -> option string).
Context (setActivity : loc -> store -> Host -> Host * Promise Presence HostError).

Local Abbreviation updateStatus' :=
  (updateStatus updateData parse cache_sizes user_id setActivity).

(** X3: called without an explicit activity, [updateStatus] hands the host
    an object of its own: its reference was unused before the call, the store
    grows by exactly that object, and every object that existed before is
    left as it was, shard id or not. *)
Theorem X3_selection_is_a_new_object
    (u : StatusUpdater) (client : Host) (pd : ParserData) (h : store)
    (r : unit_double) (shardId : option Z)
    (l : loc) (p : Promise Presence HostError) :
  outcome (updateStatus' u client pd h r None shardId) = inr (l, p) ->
  h !! l = None /\
  dom (store_after (updateStatus' u client pd h r None shardId)) = {[ l ]} ∪ dom h /\
  (forall l', l' <> l ->
     store_after (updateStatus' u client pd h r None shardId) !! l' = h !! l') /\
  (forall l' a, h !! l' = Some a ->
     store_after (updateStatus' u client pd h r None shardId) !! l' = Some a).
Proof.
  intros Hout.
  destruct (_chooseActivity parse u (updateData pd (cache_sizes client)) r)
    as [e|details] eqn:Hchoose.
  { by rewrite (updateStatus_selection_throws updateData parse cache_sizes user_id setActivity _ _ _ _ _ _ _ Hchoose) in Hout. }
  rewrite (updateStatus_chosen updateData parse cache_sizes user_id setActivity
             _ _ _ _ _ _ _ Hchoose) in Hout |- *.
  destruct (user_id client); [|discriminate Hout].
  cbn [store_after host_after outcome parser_after] in *.
  injection Hout as <- _.
  pose proof (fresh_loc_unused h) as Hfresh.
  assert (Hother : forall l', l' <> fresh (dom h) ->
            attach_shard shardId (fresh (dom h)) (<[fresh (dom h) := details]> h) !! l'
            = h !! l').
  { intros l' Hne. rewrite attach_shard_elsewhere by done.
    by rewrite lookup_insert_ne. }
  split; [exact Hfresh|]. split; [|split; [exact Hother|]].
  - apply set_eq. intros l'. rewrite elem_of_union, elem_of_singleton, !elem_of_dom.
    destruct (decide (l' = fresh (dom h))) as [->|Hne].
    + split; [by left|]. intros _. unfold attach_shard.
      destruct shardId as [n|]; [destruct (truthy_number n)|];
        rewrite ?lookup_alter_eq, lookup_insert_eq; by eexists.
    + rewrite Hother by done. split; [by right | by intros [?|?]].
  - intros l' a Ha. rewrite Hother; [exact Ha|]. intros ->. congruence.
Qed.

(** X4: every call of [updateStatus] first refreshes the parser with the
    host's three cache sizes, whatever happens next, and a call that throws
    has not called the host.  When it is the selection that throws, no
    object has changed either.  On a client without a user the throw comes
    last: an explicit activity passed with a non-zero shard id has then
    already been given that shard id. *)
Theorem X4_parser_refreshed_host_untouched_on_throw
    (u : StatusUpdater) (client : Host) (pd : ParserData) (h : store)
    (r : unit_double) (activity : option loc) (shardId : option Z) :
  parser_after (updateStatus' u client pd h r activity shardId)
    = updateData pd (cache_sizes client) /\
  (forall e,
     outcome (updateStatus' u client pd h r activity shardId) = inl e ->
     host_after (updateStatus' u client pd h r activity shardId) = client) /\
  (forall e,
     activity = None ->
     _chooseActivity parse u (updateData pd (cache_sizes client)) r = inl e ->
     outcome (updateStatus' u client pd h r activity shardId) = inl e /\
     store_after (updateStatus' u client pd h r activity shardId) = h) /\
  (forall l a n,
     activity = Some l -> h !! l = Some a ->
     shardId = Some n -> n <> 0 ->
     user_id client = None ->
     outcome (updateStatus' u client pd h r activity shardId) = inl TypeError /\
     exists written,
       store_after (updateStatus' u client pd h r activity shardId) !! l
         = Some written /\
       shardID written = Some n).
Proof.
  split; [|split; [|split]].
  - destruct activity as [l|].
    + rewrite (updateStatus_explicit updateData parse cache_sizes user_id setActivity).
      by destruct (user_id client).
    + destruct (_chooseActivity parse u (updateData pd (cache_sizes client)) r)
        as [e|details] eqn:Hchoose.
      * by rewrite (updateStatus_selection_throws updateData parse cache_sizes
                      user_id setActivity _ _ _ _ _ _ _ Hchoose).
      * rewrite (updateStatus_chosen updateData parse cache_sizes user_id
                   setActivity _ _ _ _ _ _ _ Hchoose).
        by destruct (user_id client).
  - intros e. destruct activity as [l|].
    + rewrite (updateStatus_explicit updateData parse cache_sizes user_id setActivity).
      by destruct (user_id client).
    + destruct (_chooseActivity parse u (updateData pd (cache_sizes client)) r)
        as [e'|details] eqn:Hchoose.
      * by rewrite (updateStatus_selection_throws updateData parse cache_sizes
                      user_id setActivity _ _ _ _ _ _ _ Hchoose).
      * rewrite (updateStatus_chosen updateData parse cache_sizes user_id
                   setActivity _ _ _ _ _ _ _ Hchoose).
        by destruct (user_id client).
  - intros e -> Hchoose.
    by rewrite (updateStatus_selection_throws updateData parse cache_sizes
                  user_id setActivity _ _ _ _ _ _ _ Hchoose).
  - intros l a n -> Hl -> Hn Hnone.
    rewrite (updateStatus_explicit updateData parse cache_sizes user_id setActivity),
      Hnone.
    cbn [store_after outcome]. split; [reflexivity|].
    rewrite (attach_shard_nonzero n l h a Hn Hl), lookup_insert_eq.
    by exists (with_shardID n a).
Qed.

End UpdateStatusFrame.

Lemma X3_selection_is_a_new_object_witness :
  let a := Sample.template (Some "PLAYING") "chess" in
  let res := sample_updateStatus defaultStatuses {[ 1%positive := a ]} None (Some 3) in
  ({[ 1%positive := a ]} : store) !! 2%positive = None /\
  dom (store_after res) = {[ 2%positive ]} ∪ dom ({[ 1%positive := a ]} : store) /\
  (forall l', l' <> 2%positive ->
     store_after res !! l' = ({[ 1%positive := a ]} : store) !! l') /\
  (forall l' b, ({[ 1%positive := a ]} : store) !! l' = Some b ->
     store_after res !! l' = Some b).
Proof.
  intros a.
  apply (X3_selection_is_a_new_object
           Sample.updateData Sample.parse Sample.sizes Sample.user Sample.setActivity
           (sample_updater defaultStatuses) Sample.client ∅ {[ 1%positive := a ]}
           Sample.half (Some 3) 2%positive
           (Fulfilled {| type := Some "PLAYING"; name := "in 3 servers";
                         url := None; shardID := Some 3 |})).
  vm_compute. reflexivity.
Defined.

Lemma X4_parser_refreshed_host_untouched_on_throw_witness :
  let a := Sample.template (Some "PLAYING") "chess" in
  let res := updateStatus Sample.updateData Sample.parse Sample.sizes Sample.user
               Sample.setActivity (sample_updater defaultStatuses)
               Sample.offline_client ∅ {[ 1%positive := a ]} Sample.half
               (Some 1%positive) (Some 3) in
  parser_after res = Sample.updateData ∅ Sample.counters /\
  host_after res = Sample.offline_client /\
  outcome res = inl TypeError /\
  exists written,
    store_after res !! 1%positive = Some written /\ shardID written = Some 3.
Proof.
  intros a res.
  destruct (X4_parser_refreshed_host_untouched_on_throw
              Sample.updateData Sample.parse Sample.sizes Sample.user
              Sample.setActivity (sample_updater defaultStatuses)
              Sample.offline_client ∅ {[ 1%positive := a ]} Sample.half
              (Some 1%positive) (Some 3))
    as (Hparser & Hhost & _ & Hwritten).
  split; [exact Hparser|].
  split; [apply (Hhost TypeError); reflexivity|].
  apply (Hwritten 1%positive a 3); try reflexivity. discriminate.
Defined.

(** ** Invariants of the updater *)

Section LifetimeInvariants.

Context {ParserData : Type}.
Context (updateData : ParserData -> Counters -> ParserData).
Context (parse : ParserData -> string -> string).
Context {Host Presence HostError : Type}.
Context (cache_sizes : Host -> Counters).
Context (user_id : Host -> option string).
Context (setActivity : loc -> store -> Host -> Host * Promise Presence HostError).

Local Abbreviation deliver' := (deliver updateData parse cache_sizes user_id setActivity).
Local Abbreviation run' := (run updateData parse cache_sizes user_id setActivity).

Implicit Types (w : World ParserData Host) (e : Event) (es : list Event).

Local Ltac event_cases e w :=
  unfold deliver; destruct e; destruct (task w) eqn:Htask; simpl in *;
  rewrite ?Htask; simpl; try done.

Lemma constructor_shape isUrl arg u t :
  constructor isUrl arg = inr (u, t) ->
  isReady u = false /\ t <> InitDone /\
  (forall s, statusUrl u = Some s ->
     arg = ArgString s /\ isUrl s = true /\ s <> "") /\
  (forall s, t = FetchPending s -> statusUrl u = Some s) /\
  (truthy arg = false -> statusUrl u = None /\ _statuses u = None).
Proof.
  unfold constructor, constructor_fields, _init, _getStatuses.
  destruct (truthy arg) eqn:Htruthy.
  - destruct arg; try discriminate.
    + destruct (isUrl s) eqn:Hurl; [|discriminate]. simpl.
      simpl in Htruthy. rewrite Htruthy. intros [= <- <-]. simpl.
      split; [done|]. split; [done|]. split.
      { intros ? [= <-]. by apply truthy_string_true in Htruthy. }
      split; [by intros ? [= <-]|done].
    + intros [= <- <-]. simpl. by repeat split.
  - intros [= <- <-]. simpl. by repeat split.
Qed.

Lemma deliver_ready_iff_done e w :
  (isReady (updater w) = true <-> task w = InitDone) ->
  (isReady (updater (deliver' e w)) = true <-> task (deliver' e w) = InitDone).
Proof.
  intros Hinv. event_cases e w; try (split; [intros Hr | done]);
    try (apply Hinv in Hr; congruence); try (split; done).
Qed.

(** X5: at every moment of an updater's life the readiness flag is set
    exactly when the [.then] reaction of its initializer has run: never
    while the request is outstanding, and never after it failed. *)
Theorem X5_ready_exactly_when_initializer_finished
    (isUrl : string -> bool) (arg : StatusesArg) (pd : ParserData)
    (client : Host) (h : store) (w0 : World ParserData Host) (es : list Event) :
  boot isUrl arg pd client h = inr w0 ->
  (isReady (updater (run' es w0)) = true <-> task (run' es w0) = InitDone).
Proof.
  intros Hboot. apply boot_inv in Hboot.
  destruct (constructor_shape _ _ _ _ Hboot) as (Hfresh & Hnotdone & _).
  apply (run_preserves updateData parse cache_sizes user_id setActivity
           (fun w => isReady (updater w) = true <-> task w = InitDone)).
  - apply deliver_ready_iff_done.
  - rewrite Hfresh. split; [done | by intros ?].
Qed.

Lemma deliver_keeps_url e w :
  statusUrl (updater (deliver' e w)) = statusUrl (updater w).
Proof. event_cases e w. Qed.

Lemma deliver_pending_target s e w :
  (forall t, task w = FetchPending t -> t = s) ->
  (forall t, task (deliver' e w) = FetchPending t -> t = s).
Proof. intros Hinv. event_cases e w; intros; by apply Hinv. Qed.

(** X6: the URL an updater holds never changes after construction and is
    always the non-empty string the constructor was given and [isUrl]
    accepted; the only request ever outstanding is the one to that URL. *)
Theorem X6_only_the_validated_url_is_requested
    (isUrl : string -> bool) (arg : StatusesArg) (pd : ParserData)
    (client : Host) (h : store) (w0 : World ParserData Host) (es : list Event) :
  boot isUrl arg pd client h = inr w0 ->
  statusUrl (updater (run' es w0)) = statusUrl (updater w0) /\
  (forall s, statusUrl (updater (run' es w0)) = Some s ->
     arg = ArgString s /\ isUrl s = true /\ s <> "") /\
  (forall t, task (run' es w0) = FetchPending t ->
     arg = ArgString t /\ isUrl t = true).
Proof.
  intros Hboot. apply boot_inv in Hboot.
  destruct (constructor_shape _ _ _ _ Hboot) as (_ & _ & Hurl & Hpending & _).
  assert (Hsame : statusUrl (updater (run' es w0)) = statusUrl (updater w0)).
  { apply (run_preserves updateData parse cache_sizes user_id setActivity
             (fun w => statusUrl (updater w) = statusUrl (updater w0)));
      [|reflexivity].
    intros e w Hw. by rewrite deliver_keeps_url. }
  split; [exact Hsame|]. split.
  - intros s Hs. apply Hurl. by rewrite <- Hsame.
  - intros t Ht.
    assert (Hstarted : is_fetch_pending (task w0) = true).
    { destruct (is_fetch_pending (task w0)) eqn:Hp0; [reflexivity|].
      pose proof (run_preserves updateData parse cache_sizes user_id setActivity
                    (fun w => is_fetch_pending (task w) = false)
                    (deliver_never_starts_fetch updateData parse cache_sizes user_id
                       setActivity) es w0 Hp0) as Hnever.
      simpl in Hnever. by rewrite Ht in Hnever. }
    destruct (task w0) as [target| | | |] eqn:Ht0; try discriminate.
    assert (t = target) as ->.
    { revert t Ht.
      apply (run_preserves updateData parse cache_sizes user_id setActivity
               (fun w => forall t, task w = FetchPending t -> t = target)).
      - intros e w. apply deliver_pending_target.
      - intros t. rewrite Ht0. by intros [= ->]. }
    destruct (Hurl target (Hpending target eq_refl)) as (? & ? & _). done.
Qed.

(** C3: the code at the failing input.  For an updater constructed
    without a third argument the initializer resolves to the seven built-in
    templates, and [statuses] returns them as long as the updater is not
    READY; but the field the getter reads once READY was never assigned, so
    from the moment the [.then] reaction has run, and at every later time,
    [statuses] returns [undefined] instead of the resolved pool. *)
Theorem C3_unseeded_instance_ready_statuses_undefined
    (isUrl : string -> bool) (pd : ParserData) (client : Host) (h : store) :
  let w0 :=
    {| updater := {| statusUrl := None; _statuses := None; isReady := false |};
       task := ThenQueued defaultStatuses;
       parser_data := pd; host := client; objects := h |} in
  boot isUrl ArgUndefined pd client h = inr w0 /\
  statuses (updater w0) = Some defaultStatuses /\
  isReady (updater (run' [RunReaction] w0)) = true /\
  statuses (updater (run' [RunReaction] w0)) = None /\
  statuses (updater (run' [RunReaction] w0)) <> Some defaultStatuses /\
  forall es,
    statuses (updater (run' es w0)) =
    if isReady (updater (run' es w0)) then None else Some defaultStatuses.
Proof.
  intros w0. repeat split; [discriminate|].
  intros es. rewrite statuses_by_flag. case_match; [|reflexivity].
  apply (run_preserves updateData parse cache_sizes user_id setActivity
           (fun w => _statuses (updater w) = None
                     /\ is_fetch_pending (task w) = false)).
  - apply deliver_keeps_pool.
  - done.
Qed.

(** X7: an updater constructed without a pool (any falsy argument) reaches
    READY with no pool stored; from then on, for the rest of its life, every
    [updateStatus] without an explicit activity throws a [TypeError] and
    neither calls the host nor changes an object. *)
Theorem X7_unseeded_updater_cannot_select_once_ready
    (isUrl : string -> bool) (arg : StatusesArg) (pd : ParserData)
    (client : Host) (h : store) (w0 : World ParserData Host) :
  boot isUrl arg pd client h = inr w0 ->
  truthy arg = false ->
  isReady (updater (run' [RunReaction] w0)) = true /\
  forall es r shardId,
    isReady (updater (run' es w0)) = true ->
    outcome (updateStatus updateData parse cache_sizes user_id setActivity
               (updater (run' es w0)) (host (run' es w0))
               (parser_data (run' es w0)) (objects (run' es w0))
               r None shardId) = inl TypeError /\
    host_after (updateStatus updateData parse cache_sizes user_id setActivity
                  (updater (run' es w0)) (host (run' es w0))
                  (parser_data (run' es w0)) (objects (run' es w0))
                  r None shardId) = host (run' es w0) /\
    store_after (updateStatus updateData parse cache_sizes user_id setActivity
                   (updater (run' es w0)) (host (run' es w0))
                   (parser_data (run' es w0)) (objects (run' es w0))
                   r None shardId) = objects (run' es w0).
Proof.
  intros Hboot Hfalsy.
  assert (Htask : task w0 = ThenQueued defaultStatuses).
  { unfold boot, constructor, constructor_fields in Hboot.
    rewrite Hfalsy in Hboot. by injection Hboot as <-. }
  apply boot_inv in Hboot.
  destruct (constructor_shape _ _ _ _ Hboot) as (_ & _ & _ & _ & Hnone).
  destruct (Hnone Hfalsy) as [_ Hpool].
  split.
  { change (run' [RunReaction] w0) with (deliver' RunReaction w0).
    by rewrite (deliver_then updateData parse cache_sizes user_id setActivity _ _ Htask). }
  intros es r shardId Hready.
  assert (Hkept : _statuses (updater (run' es w0)) = None
                  /\ is_fetch_pending (task (run' es w0)) = false).
  { apply (run_preserves updateData parse cache_sizes user_id setActivity
             (fun w => _statuses (updater w) = None
                       /\ is_fetch_pending (task w) = false)).
    - apply deliver_keeps_pool.
    - by rewrite Hpool, Htask. }
  assert (Hthrows : _chooseActivity parse (updater (run' es w0))
                      (updateData (parser_data (run' es w0))
                                  (cache_sizes (host (run' es w0)))) r
                    = inl TypeError).
  { apply chooseActivity_throws_iff.
    by rewrite statuses_by_flag, Hready, (proj1 Hkept). }
  by rewrite (updateStatus_selection_throws updateData parse cache_sizes user_id setActivity _ _ _ _ _ _ _ Hthrows).
Qed.

Lemma deliver_keeps_failure reason e w :
  (task w = CatchQueued reason \/ task w = InitFailed (init_catch reason)) ->
  (task (deliver' e w) = CatchQueued reason
   \/ task (deliver' e w) = InitFailed (init_catch reason)).
Proof.
  intros [Hw|Hw]; event_cases e w; try (by left); try (by right);
    try congruence.
  - right. congruence.
Qed.

Lemma reaction_surfaces_failure reason es w :
  (task w = CatchQueued reason \/ task w = InitFailed (init_catch reason)) ->
  In RunReaction es ->
  task (run' es w) = InitFailed (init_catch reason).
Proof.
  revert w. induction es as [|e es IH]; intros w Hw Hin; [destruct Hin|].
  rewrite run_cons.
  destruct Hin as [->|Hin].
  - assert (Hnow : task (deliver' RunReaction w) = InitFailed (init_catch reason)).
    { unfold deliver. destruct Hw as [Hw|Hw]; rewrite Hw; simpl; by rewrite ?Hw. }
    generalize (deliver' RunReaction w) Hnow. clear.
    induction es as [|e es IH]; intros w Hw; [exact Hw|].
    rewrite run_cons. apply IH.
    unfold deliver. rewrite Hw. destruct e; simpl; by rewrite ?Hw.
  - apply IH; [|exact Hin]. by apply deliver_keeps_failure.
Qed.

(** X8: a rejected request is never swallowed and never replaced: from the
    rejection on, the initializer is either about to rethrow or has rethrown
    as an unhandled rejection, and what it rethrows is the request's own
    rejection reason, the fixed [Error] only when that reason is falsy; once
    the queued reaction has run the rethrow has happened. *)
Theorem X8_fetch_failure_is_rethrown_unchanged
    (isUrl : string -> bool) (arg : StatusesArg) (pd : ParserData)
    (client : Host) (h : store) (w0 : World ParserData Host)
    (es1 es2 : list Event) (reason : option Exception) :
  boot isUrl arg pd client h = inr w0 ->
  is_fetch_pending (task w0) = true ->
  forallb (fun e => negb (settles_fetch e)) es1 = true ->
  (task (run' (es1 ++ FetchRejected reason :: es2) w0) = CatchQueued reason \/
   task (run' (es1 ++ FetchRejected reason :: es2) w0)
     = InitFailed (init_catch reason)) /\
  (In RunReaction es2 ->
   task (run' (es1 ++ FetchRejected reason :: es2) w0)
     = InitFailed (init_catch reason)) /\
  (forall thrown : Exception, reason = Some thrown -> init_catch reason = thrown) /\
  (reason = None ->
   init_catch reason = Error "[StatusUpdater] Failed to initialize.").
Proof.
  intros Hboot Hpending Hes1.
  apply boot_inv in Hboot.
  pose proof (constructor_not_ready _ _ _ _ Hboot) as Hfresh.
  assert (Hmid : is_fetch_pending (task (run' es1 w0)) = true
                 /\ isReady (updater (run' es1 w0)) = false).
  { apply (run_preserves_filtered updateData parse cache_sizes user_id setActivity
             (fun e => negb (settles_fetch e))
             (fun w => is_fetch_pending (task w) = true
                       /\ isReady (updater w) = false)); [|exact Hes1|done].
    intros e w He. apply deliver_pending_kept. by apply negb_true_iff. }
  assert (Hrejected : task (deliver' (FetchRejected reason) (run' es1 w0))
                      = CatchQueued reason).
  { destruct Hmid as [Hp _]. unfold deliver.
    by destruct (task (run' es1 w0)). }
  rewrite run_app, run_cons.
  split; [|split; [|split]].
  - apply (run_preserves updateData parse cache_sizes user_id setActivity
             (fun w => task w = CatchQueued reason
                       \/ task w = InitFailed (init_catch reason)));
      [apply deliver_keeps_failure | by left].
  - intros Hin. apply reaction_surfaces_failure; [by left | exact Hin].
  - by intros thrown ->.
  - by intros ->.
Qed.

End LifetimeInvariants.

Lemma X5_ready_exactly_when_initializer_finished_witness :
  isReady (updater (sample_run [FetchFulfilled defaultStatuses; RunReaction]
                      sample_world_from_url)) = true <->
  task (sample_run [FetchFulfilled defaultStatuses; RunReaction]
          sample_world_from_url) = InitDone.
Proof.
  apply (X5_ready_exactly_when_initializer_finished
           Sample.updateData Sample.parse Sample.sizes Sample.user Sample.setActivity
           Sample.isUrl (ArgString "https://example.com/statuses.json")
           ∅ Sample.client ∅ sample_world_from_url
           [FetchFulfilled defaultStatuses; RunReaction]).
  reflexivity.
Defined.

Lemma X6_only_the_validated_url_is_requested_witness :
  statusUrl (updater (sample_run [ReadStatuses] sample_world_from_url))
    = statusUrl (updater sample_world_from_url) /\
  (forall s,
     statusUrl (updater (sample_run [ReadStatuses] sample_world_from_url)) = Some s ->
     ArgString "https://example.com/statuses.json" = ArgString s /\
     Sample.isUrl s = true /\ s <> "") /\
  (forall t,
     task (sample_run [ReadStatuses] sample_world_from_url) = FetchPending t ->
     ArgString "https://example.com/statuses.json" = ArgString t /\
     Sample.isUrl t = true).
Proof.
  apply (X6_only_the_validated_url_is_requested
           Sample.updateData Sample.parse Sample.sizes Sample.user Sample.setActivity
           Sample.isUrl (ArgString "https://example.com/statuses.json")
           ∅ Sample.client ∅ sample_world_from_url [ReadStatuses]).
  reflexivity.
Defined.

Lemma X7_unseeded_updater_cannot_select_once_ready_witness :
  isReady (updater (sample_run [RunReaction] sample_world_unseeded)) = true /\
  outcome (updateStatus Sample.updateData Sample.parse Sample.sizes Sample.user Sample.setActivity
             (updater (sample_run [RunReaction] sample_world_unseeded))
             (host (sample_run [RunReaction] sample_world_unseeded))
             (parser_data (sample_run [RunReaction] sample_world_unseeded))
             (objects (sample_run [RunReaction] sample_world_unseeded))
             Sample.half None (Some 1)) = inl TypeError.
Proof.
  destruct (X7_unseeded_updater_cannot_select_once_ready
              Sample.updateData Sample.parse Sample.sizes Sample.user Sample.setActivity
              Sample.isUrl (ArgString "") ∅ Sample.client ∅ sample_world_unseeded)
    as [Hready Hthrows]; [reflexivity | reflexivity |].
  split; [exact Hready|].
  destruct (Hthrows [RunReaction] Sample.half (Some 1) Hready) as [Hout _].
  exact Hout.
Defined.

Lemma X8_fetch_failure_is_rethrown_unchanged_witness :
  task (sample_run ([ReadStatuses] ++ FetchRejected (Some (Error "timeout"))
                      :: [RunReaction; ReadStatuses])
          sample_world_from_url)
  = InitFailed (Error "timeout").
Proof.
  destruct (X8_fetch_failure_is_rethrown_unchanged
              Sample.updateData Sample.parse Sample.sizes Sample.user Sample.setActivity
              Sample.isUrl (ArgString "https://example.com/statuses.json")
              ∅ Sample.client ∅ sample_world_from_url
              [ReadStatuses] [RunReaction; ReadStatuses]
              (Some (Error "timeout")))
    as (_ & Hsurfaced & _); [reflexivity | reflexivity | reflexivity |].
  apply Hsurfaced. left. reflexivity.
Defined.

(** ** More about the webhook logger *)

Section WebhookLoggerMore.

Context (SILLY : Z) {Color Time Data : Type}.
Context (colors2 : Z -> Color) (_prepareText : list Data -> string).
Context (_processTag : string).

Local Abbreviation write' := (_write SILLY colors2 _prepareText _processTag).

Implicit Types (now : Time) (level : Z) (tag : string) (data : list Data).

(** Everything [_write] puts into a message it sends. *)
Lemma write_sent_fields now level tag data opts :
  to_webhook (write' now level tag data) = Some opts ->
  level <= SILLY /\
  avatarURL opts = "https://cdn.discordapp.com/avatars/237993001828352001/a_04c3221e95f15ebcec7fbb96c6ec1146.gif?size=512" /\
  username opts = "Emoji Stealer Status" /\
  exists embed,
    embeds opts = [embed] /\
    timestamp embed = Some now /\
    color embed = Some (colors2 level) /\
    footer embed = Some _processTag /\
    title embed = (if truthy_string tag then Some tag else None) /\
    description embed =
      Some (if (String.length (_prepareText data) <=? 2048)%nat
            then _prepareText data
            else "Data is too long, falling back to file.") /\
    files opts =
      (if (String.length (_prepareText data) <=? 2048)%nat then None
       else Some [ {| attachment := _prepareText data;
                      attachment_name := "file.txt" |} ]).
Proof.
  unfold _write, _webhookLevel.
  destruct (SILLY <? level) eqn:Hgate; [discriminate|].
  apply Z.ltb_ge in Hgate.
  destruct (String.length (_prepareText data) <=? 2048)%nat;
    destruct (truthy_string tag); simpl; intros [= <-]; simpl;
    (split; [exact Hgate|]; split; [reflexivity|]; split; [reflexivity|];
     eexists; split; [reflexivity|]; by repeat split).
Qed.

(** X9: no message sent to the webhook has a description longer than 2048
    characters, however long the logged text is. *)
Theorem X9_description_never_exceeds_limit now level tag data opts :
  to_webhook (_write SILLY colors2 _prepareText _processTag now level tag data)
    = Some opts ->
  exists embed text,
    embeds opts = [embed] /\
    description embed = Some text /\
    (String.length text <= 2048)%nat.
Proof.
  intros Hsent.
  destruct (write_sent_fields _ _ _ _ _ Hsent)
    as (_ & _ & _ & embed & Hembeds & _ & _ & _ & _ & Hdescr & _).
  exists embed. eexists. split; [exact Hembeds|]. split; [exact Hdescr|].
  destruct (String.length (_prepareText data) <=? 2048)%nat eqn:Hlen.
  - by apply Nat.leb_le.
  - apply Nat.leb_le. reflexivity.
Qed.

(** X10: no logged text is lost or cut: every message sent carries the whole
    prepared text, as the description when it is sent inline and otherwise as
    the content of its only attachment, which is named file.txt. *)
Theorem X10_prepared_text_always_delivered now level tag data opts :
  to_webhook (write' now level tag data) = Some opts ->
  delivered_text opts = Some (_prepareText data) /\
  (forall attached, files opts = Some attached ->
     attached = [ {| attachment := _prepareText data;
                     attachment_name := "file.txt" |} ]).
Proof.
  intros Hsent.
  destruct (write_sent_fields _ _ _ _ _ Hsent)
    as (_ & _ & _ & embed & Hembeds & _ & _ & _ & _ & Hdescr & Hfiles).
  unfold delivered_text. rewrite Hfiles, Hembeds, Hdescr.
  destruct (String.length (_prepareText data) <=? 2048)%nat.
  - split; [reflexivity | discriminate].
  - split; [reflexivity | by intros ? [= <-]].
Qed.

(** X11: every entry is passed on to the console logger, with its level and
    data and the tag prefixed by "Webhook][", whether or not it goes to the
    webhook; and it is kept from the webhook exactly when its level is above
    the logger's level. *)
Theorem X11_console_always_webhook_by_level now level tag data :
  console_level _ (to_console (write' now level tag data)) = level /\
  console_tag _ (to_console (write' now level tag data)) = ("Webhook][" ++ tag)%string /\
  console_data _ (to_console (write' now level tag data)) = data /\
  (to_webhook (write' now level tag data) = None <-> SILLY < level).
Proof.
  unfold _write, _webhookLevel.
  destruct (SILLY <? level) eqn:Hgate.
  - apply Z.ltb_lt in Hgate. by repeat split.
  - apply Z.ltb_ge in Hgate.
    destruct (String.length (_prepareText data) <=? 2048)%nat; simpl;
      (repeat split; [discriminate | lia]).
Qed.

(** X12: the logged text decides nothing but the description and the
    attachment: two entries with the same time, level and tag are sent under
    the same user name and avatar, with one embed each, and the two embeds
    agree on timestamp, colour, footer and title; the title is the tag, and
    is absent when the tag is empty. *)
Theorem X12_text_decides_only_description_and_files
    now level tag data data' opts opts' :
  to_webhook (_write SILLY colors2 _prepareText _processTag now level tag data)
    = Some opts ->
  to_webhook (_write SILLY colors2 _prepareText _processTag now level tag data')
    = Some opts' ->
  avatarURL opts = avatarURL opts' /\
  username opts = username opts' /\
  exists embed embed',
    embeds opts = [embed] /\ embeds opts' = [embed'] /\
    timestamp embed = timestamp embed' /\
    color embed = color embed' /\
    footer embed = footer embed' /\
    title embed = title embed' /\
    (tag <> "" -> title embed = Some tag) /\
    (tag = "" -> title embed = None).
Proof.
  intros Hsent Hsent'.
  destruct (write_sent_fields _ _ _ _ _ Hsent)
    as (_ & Havatar & Huser & embed & Hembeds & Htime & Hcolor & Hfooter & Htitle & _).
  destruct (write_sent_fields _ _ _ _ _ Hsent')
    as (_ & Havatar' & Huser' & embed' & Hembeds' & Htime' & Hcolor' & Hfooter'
        & Htitle' & _).
  split; [congruence|]. split; [congruence|].
  exists embed, embed'.
  split; [exact Hembeds|]. split; [exact Hembeds'|].
  split; [congruence|]. split; [congruence|]. split; [congruence|].
  split; [congruence|]. split.
  - intros Htag. apply truthy_string_true in Htag. by rewrite Htitle, Htag.
  - intros ->. exact Htitle.
Qed.

End WebhookLoggerMore.

Lemma X9_description_never_exceeds_limit_witness :
  exists embed text,
    embeds sample_file_message = [embed] /\
    description embed = Some text /\
    (String.length text <= 2048)%nat.
Proof.
  apply (X9_description_never_exceeds_limit
           Sample.SILLY Sample.colors2 Sample._prepareText "pid 1"
           1700000000 3 "CLIENT" [Sample.filler 2049]).
  vm_compute. reflexivity.
Defined.

Lemma X10_prepared_text_always_delivered_witness :
  delivered_text sample_file_message = Some (Sample._prepareText [Sample.filler 2049]) /\
  delivered_text sample_inline_message = Some (Sample._prepareText ["shard"; "ready"]).
Proof.
  split.
  - destruct (X10_prepared_text_always_delivered
                Sample.SILLY Sample.colors2 Sample._prepareText "pid 1"
                1700000000 3 "CLIENT" [Sample.filler 2049] sample_file_message)
      as [Hdelivered _]; [vm_compute; reflexivity | exact Hdelivered].
  - destruct (X10_prepared_text_always_delivered
                Sample.SILLY Sample.colors2 Sample._prepareText "pid 1"
                1700000000 3 "CLIENT" ["shard"; "ready"] sample_inline_message)
      as [Hdelivered _]; [reflexivity | exact Hdelivered].
Defined.

Lemma X12_text_decides_only_description_and_files_witness :
  avatarURL sample_inline_message = avatarURL sample_file_message /\
  username sample_inline_message = username sample_file_message /\
  exists embed embed',
    embeds sample_inline_message = [embed] /\
    embeds sample_file_message = [embed'] /\
    timestamp embed = timestamp embed' /\
    color embed = color embed' /\
    footer embed = footer embed' /\
    title embed = title embed' /\
    ("CLIENT" <> "" -> title embed = Some "CLIENT") /\
    ("CLIENT" = "" -> title embed = None).
Proof.
  apply (X12_text_decides_only_description_and_files
           Sample.SILLY Sample.colors2 Sample._prepareText "pid 1"
           1700000000 3 "CLIENT" ["shard"; "ready"] [Sample.filler 2049]).
  - reflexivity.
  - vm_compute. reflexivity.
Defined.

Lemma X11_console_always_webhook_by_level_witness :
  console_tag _ (to_console (Sample.write 7 "CLIENT" ["noise"])) = "Webhook][CLIENT" /\
  to_webhook (Sample.write 7 "CLIENT" ["noise"]) = None.
Proof.
  destruct (X11_console_always_webhook_by_level
              Sample.SILLY Sample.colors2 Sample._prepareText "pid 1"
              1700000000 7 "CLIENT" ["noise"])
    as (_ & Htag & _ & Hgate).
  split; [exact Htag|]. apply Hgate. reflexivity.
Defined.

(** ** The bot client *)

Section BotClientFacts.

Context (prefix : string) {Host Presence HostError : Type}.
Context (cache_sizes : Host -> Counters) (user_id : Host -> option string).
Context (setActivityNamed :
           string -> StatusDetails -> Host -> Host * Promise Presence HostError).
Context {Response HttpError : Type}.
Context (patch : PatchRequest -> Promise Response HttpError).

Local Abbreviation changeStatus' :=
  (changeStatus prefix cache_sizes user_id setActivityNamed).
Local Abbreviation updateBotStats' := (updateBotStats user_id patch).
Local Abbreviation on_updateStats' := (on_updateStats cache_sizes user_id patch).

Implicit Types (client : Host) (r : unit_double).



(** X14: for a logged-in client, [changeStatus] with explicit options asks
    the host for the options' name with a kind that is never empty (the
    options' kind, PLAYING when it is unset or empty) and with the options'
    url unless that is unset or empty; the random source, the cache sizes
    and the options' shard id have no influence on the request; the promise
    is fulfilled. *)
Theorem X14_changeStatus_with_options client r (id : string) (o : ActivityOptions) :
  user_id client = Some id ->
  exists details,
    requested (changeStatus' client r (Some o)) = Some (name o, details) /\
    completion (changeStatus' client r (Some o)) = Fulfilled tt /\
    details_type details <> "" /\
    (forall kind, type o = Some kind -> kind <> "" -> details_type details = kind) /\
    (type o = None \/ type o = Some "" -> details_type details = "PLAYING") /\
    (forall target, url o = Some target -> target <> "" ->
       details_url details = Some target) /\
    (url o = None \/ url o = Some "" -> details_url details = None) /\
    (forall r' shard,
       changeStatus' client r'
         (Some {| type := type o; name := name o; url := url o; shardID := shard |})
       = changeStatus' client r (Some o)).
Proof.
  intros Hid. unfold changeStatus. rewrite Hid. simpl.
  eexists. split; [reflexivity|]. split; [reflexivity|]. simpl.
  split; [by apply string_or_nonempty|].
  split. { intros kind -> Hkind. by apply string_or_keep. }
  split. { by apply string_or_default. }
  split. { intros target -> Htarget. by apply truthy_string_true in Htarget as ->. }
  split. { by intros [-> | ->]. }
  reflexivity.
Qed.

(** X15: before login, while [client.user] is null, [changeStatus] rejects
    with a [TypeError] without asking the host for anything, and
    [updateBotStats] with the statistics API enabled rejects with a
    [TypeError] without sending a request or logging; with the API disabled
    it only logs its warning and is fulfilled. *)
Theorem X15_before_login client r (options : option ActivityOptions)
    (instance : AxiosInstance) (guilds channels users : Z) :
  user_id client = None ->
  (requested (changeStatus' client r options) = None /\
   bot_after (changeStatus' client r options) = client /\
   completion (changeStatus' client r options) = Rejected TypeError) /\
  updateBotStats' (Some instance) client guilds channels users
    = {| sent := []; logged := []; upload_returned := Rejected TypeError |} /\
  updateBotStats' None client guilds channels users
    = {| sent := [];
         logged := [LoggerWarn "API" "Botstat API is disabled"];
         upload_returned := Fulfilled tt |}.
Proof.
  intros Hid. split; [|split].
  - unfold changeStatus. rewrite Hid.
    by destruct (match options with Some o => Some o | None => _ end).
  - unfold updateBotStats. by rewrite Hid.
  - reflexivity.
Qed.

(** X16: for a logged-in client [updateBotStats] never rejects and writes
    exactly one log entry: with the API disabled the warning, and no
    request; with it enabled exactly one PATCH to /botstat/<user id> carrying
    the three counts under their own keys, followed by the console line when
    the request succeeds and by an error entry with the request's own
    failure when it fails. *)
Theorem X16_updateBotStats_never_rejects client (id : string)
    (botstat : option AxiosInstance) (guilds channels users : Z) :
  user_id client = Some id ->
  upload_returned (updateBotStats' botstat client guilds channels users)
    = Fulfilled tt /\
  length (logged (updateBotStats' botstat client guilds channels users)) = 1%nat /\
  (botstat = None ->
   sent (updateBotStats' botstat client guilds channels users) = [] /\
   logged (updateBotStats' botstat client guilds channels users)
     = [LoggerWarn "API" "Botstat API is disabled"]) /\
  (forall instance, botstat = Some instance ->
   let request :=
     {| via := instance; path := ("/botstat/" ++ id)%string;
        body := {| body_guilds := guilds; body_channels := channels;
                   body_users := users |} |} in
   sent (updateBotStats' botstat client guilds channels users) = [request] /\
   (forall response, patch request = Fulfilled response ->
      exists line,
        logged (updateBotStats' botstat client guilds channels users)
          = [ConsoleInfo line]) /\
   (forall failure, patch request = Rejected failure ->
      logged (updateBotStats' botstat client guilds channels users)
        = [LoggerError "API" failure])).
Proof.
  intros Hid. unfold updateBotStats. rewrite Hid.
  destruct botstat as [instance|]; [|by repeat split].
  destruct (patch _) as [response|failure] eqn:Hpatch; simpl.
  - split; [done|]. split; [done|]. split; [done|].
    intros ? [= <-]. rewrite Hpatch. simpl.
    split; [done|]. split; [by eauto | done].
  - split; [done|]. split; [done|]. split; [done|].
    intros ? [= <-]. rewrite Hpatch. simpl.
    split; [done|]. split; [done | by intros ? [= <-]].
Qed.

(** X17: the statistics listener of a logged-in client sends a request
    exactly when the configured token is a non-empty string; the request
    then goes through the fixed base URL with a 5000 ms timeout and the
    header "Bearer <token>", and its body holds the guild, channel and user
    cache sizes each under its own key. *)
Theorem X17_stats_listener_sends_iff_token client (id : string)
    (botstatToken : option string) :
  user_id client = Some id ->
  (sent (on_updateStats' (make_botstat botstatToken) client) <> [] <->
   exists token, botstatToken = Some token /\ token <> "") /\
  (forall request,
     request ∈ sent (on_updateStats' (make_botstat botstatToken) client) ->
     (exists token,
        botstatToken = Some token /\
        authorization (via request) = ("Bearer " ++ token)%string) /\
     baseURL (via request) = "https://tmuniversal-api.herokuapp.com/api/v1" /\
     timeout (via request) = 5000 /\
     path request = ("/botstat/" ++ id)%string /\
     body_guilds (body request) = guilds (cache_sizes client) /\
     body_channels (body request) = channels (cache_sizes client) /\
     body_users (body request) = users (cache_sizes client)).
Proof.
  intros Hid. unfold on_updateStats, updateBotStats, make_botstat. rewrite Hid.
  destruct botstatToken as [token|].
  - destruct (truthy_string token) eqn:Htoken; simpl.
    + assert (Hlen : (String.length token =? 0)%nat = false).
      { apply truthy_string_true in Htoken. destruct token; [done|reflexivity]. }
      rewrite Hlen. simpl.
      split.
      * split; [intros _; exists token; split; [done|by apply truthy_string_true]|].
        intros _. by destruct (patch _).
      * intros request Hin.
        assert (request =
                {| via := {| baseURL := "https://tmuniversal-api.herokuapp.com/api/v1";
                             timeout := 5000;
                             authorization := ("Bearer " ++ token)%string |};
                   path := ("/botstat/" ++ id)%string;
                   body := {| body_guilds := guilds (cache_sizes client);
                              body_channels := channels (cache_sizes client);
                              body_users := users (cache_sizes client) |} |}) as ->.
        { destruct (patch _); simpl in Hin; by apply list_elem_of_singleton in Hin. }
        simpl. repeat split. by exists token.
    + split.
      * split; [done|]. intros (t & [= <-] & Hne).
        by apply truthy_string_true in Hne; congruence.
      * intros request Hin. by apply elem_of_nil in Hin.
  - split.
    + split; [done|]. by intros (t & ? & _).
    + intros request Hin. by apply elem_of_nil in Hin.
Qed.

End BotClientFacts.


Example changeStatus_last_status :
  requested (changeStatus "!" SampleBot.bot_sizes SampleBot.bot_user
               SampleBot.setActivityNamed SampleBot.bot Sample.almost_one None)
  = Some ("3 servers", {| details_type := "WATCHING"; details_url := None |}).
Proof. vm_compute. reflexivity. Qed.

Lemma X14_changeStatus_with_options_witness :
  let o := {| type := None; name := "maintenance"; url := Some ""; shardID := Some 0 |} in
  exists details,
    requested (changeStatus "!" SampleBot.bot_sizes SampleBot.bot_user
                 SampleBot.setActivityNamed SampleBot.bot Sample.half (Some o))
      = Some ("maintenance", details) /\
    details_type details = "PLAYING" /\
    details_url details = None.
Proof.
  intros o.
  destruct (X14_changeStatus_with_options "!" SampleBot.bot_sizes
              SampleBot.bot_user SampleBot.setActivityNamed SampleBot.bot
              Sample.half "237993001828352001" o)
    as (details & Hreq & _ & _ & _ & Hkind & _ & Hurl & _); [reflexivity|].
  exists details. split; [exact Hreq|]. split.
  - apply Hkind. by left.
  - apply Hurl. by right.
Defined.

Lemma X15_before_login_witness :
  let offline :=
    {| SampleBot.bot_sizes := Sample.counters; SampleBot.bot_user := None;
       SampleBot.shown := [] |} in
  completion (changeStatus "!" SampleBot.bot_sizes SampleBot.bot_user
                SampleBot.setActivityNamed offline Sample.half None)
    = Rejected TypeError /\
  upload_returned (updateBotStats SampleBot.bot_user SampleBot.patch
                     (make_botstat (Some "secret")) offline 3 7 42)
    = Rejected TypeError.
Proof.
  intros offline.
  destruct (X15_before_login "!" SampleBot.bot_sizes SampleBot.bot_user
              SampleBot.setActivityNamed SampleBot.patch offline Sample.half None
              {| baseURL := "https://tmuniversal-api.herokuapp.com/api/v1";
                 timeout := 5000; authorization := "Bearer secret" |} 3 7 42)
    as ((_ & _ & Hchange) & Hupload & _); [reflexivity|].
  split; [exact Hchange|].
  change (make_botstat (Some "secret"))
    with (Some {| baseURL := "https://tmuniversal-api.herokuapp.com/api/v1";
                  timeout := 5000; authorization := "Bearer secret" |}).
  by rewrite Hupload.
Defined.

Lemma X16_updateBotStats_never_rejects_witness :
  upload_returned (updateBotStats SampleBot.bot_user SampleBot.patch
                     (make_botstat (Some "secret")) SampleBot.bot (-1) 7 42)
    = Fulfilled tt /\
  logged (updateBotStats SampleBot.bot_user SampleBot.patch
            (make_botstat (Some "secret")) SampleBot.bot (-1) 7 42)
    = [LoggerError "API" "HTTP 400"].
Proof.
  destruct (X16_updateBotStats_never_rejects SampleBot.bot_user SampleBot.patch
              SampleBot.bot "237993001828352001"
              (make_botstat (Some "secret")) (-1) 7 42)
    as (Hreturned & _ & _ & Hsent); [reflexivity|].
  split; [exact Hreturned|].
  destruct (Hsent _ eq_refl) as (_ & _ & Hfailed).
  apply Hfailed. reflexivity.
Defined.

Lemma X17_stats_listener_sends_iff_token_witness :
  sent (on_updateStats SampleBot.bot_sizes SampleBot.bot_user SampleBot.patch
          (make_botstat (Some "secret")) SampleBot.bot) <> [] /\
  sent (on_updateStats SampleBot.bot_sizes SampleBot.bot_user SampleBot.patch
          (make_botstat (Some "")) SampleBot.bot) = [].
Proof.
  split.
  - destruct (X17_stats_listener_sends_iff_token SampleBot.bot_sizes
                SampleBot.bot_user SampleBot.patch SampleBot.bot
                "237993001828352001" (Some "secret"))
      as [[_ Hsends] _]; [reflexivity|].
    apply Hsends. exists "secret". by split.
  - destruct (X17_stats_listener_sends_iff_token SampleBot.bot_sizes
                SampleBot.bot_user SampleBot.patch SampleBot.bot
                "237993001828352001" (Some ""))
      as [[Honly _] _]; [reflexivity|].
    destruct (sent _) eqn:Hsent; [reflexivity|].
    exfalso. destruct Honly as (token & [= <-] & Hne); [discriminate | by apply Hne].
Defined.
